(** * Coupon clipper: session cache, login flow, discovery and clipping engine

    A shallow embedding of the services of the repository
    ([app/services/session_manager.py], [app/services/store_discovery.py],
    [app/services/coupon_service.py]) and the properties of its
    specification, settled against that embedding.

    Part I holds the embedding (definitions only), Part II the lemmas. *)

From stdpp Require Import gmap strings list fin_maps pretty.
From Stdlib Require Import ZArith String Ascii Lia.

Local Set Warnings "-register-all".
Open Scope string_scope.
Open Scope list_scope.
Open Scope Z_scope.

(* ===================================================================== *)
(** * Part I: the embedding                                               *)
(* ===================================================================== *)

(** ** Python string helpers used by the services *)
Module PyStr.

(** [s.startswith(p)] *)
Definition startswith (p s : string) : bool := String.prefix p s.

(** [s.endswith(p)] *)
Definition endswith (p s : string) : bool :=
  String.prefix (String.rev p) (String.rev s).

(** [len(s)] as an integer *)
Definition len (s : string) : Z := Z.of_nat (String.length s).

(** [sub in s] *)
Definition contains (sub s : string) : bool :=
  match String.index 0 sub s with Some _ => true | None => false end.

(** [s.lower()], on ASCII letters *)
Definition lower_char (a : ascii) : ascii :=
  let n := Ascii.nat_of_ascii a in
  if (65 <=? n)%nat && (n <=? 90)%nat then Ascii.ascii_of_nat (n + 32) else a.

Fixpoint lower (s : string) : string :=
  match s with
  | EmptyString => EmptyString
  | String a s' => String (lower_char a) (lower s')
  end.

(** [s[:n]] *)
Definition take (n : nat) (s : string) : string := String.substring 0 n s.

(** [s[:-n]] for [0 < n] *)
Definition drop_last (n : nat) (s : string) : string :=
  String.substring 0 (String.length s - n) s.

(** Whitespace for [str.split()], on ASCII. *)
Definition is_space (a : ascii) : bool :=
  let n := Ascii.nat_of_ascii a in
  ((9 <=? n)%nat && (n <=? 13)%nat) || ((28 <=? n)%nat && (n <=? 32)%nat).

(** [s.split()]: the maximal runs of characters that are not whitespace.
    [cur] is the run being read, in reverse. *)
Fixpoint split_go (cur : string) (s : string) : list string :=
  match s with
  | EmptyString => match cur with EmptyString => [] | _ => [String.rev cur] end
  | String a s' =>
      if is_space a
      then match cur with
           | EmptyString => split_go EmptyString s'
           | _ => String.rev cur :: split_go EmptyString s'
           end
      else split_go (String a cur) s'
  end.
Definition split (s : string) : list string := split_go EmptyString s.

(** [s.strip()] *)
Fixpoint lstrip (s : string) : string :=
  match s with
  | String a s' => if is_space a then lstrip s' else s
  | EmptyString => EmptyString
  end.
Definition strip (s : string) : string :=
  String.rev (lstrip (String.rev (lstrip s))).

(** The text before the first occurrence of [sep] and the text after it;
    [None] when [sep] does not occur. *)
Definition partition (sep s : string) : option (string * string) :=
  match String.index 0 sep s with
  | Some i =>
      Some (String.substring 0 i s,
            String.substring (i + String.length sep)
              (String.length s - (i + String.length sep)) s)
  | None => None
  end.

(** [s.split(sep)[0]] *)
Definition before (sep s : string) : string :=
  match partition sep s with Some (a, _) => a | None => s end.

(** [s.title()], on ASCII letters: a letter that follows a letter is
    lowered, any other letter is raised. *)
Definition is_upper (a : ascii) : bool :=
  let n := Ascii.nat_of_ascii a in (65 <=? n)%nat && (n <=? 90)%nat.
Definition is_lower (a : ascii) : bool :=
  let n := Ascii.nat_of_ascii a in (97 <=? n)%nat && (n <=? 122)%nat.
Definition upper_char (a : ascii) : ascii :=
  if is_lower a then Ascii.ascii_of_nat (Ascii.nat_of_ascii a - 32) else a.
Fixpoint title_go (prev_cased : bool) (s : string) : string :=
  match s with
  | EmptyString => EmptyString
  | String a s' =>
      let cased := is_upper a || is_lower a in
      String (if prev_cased then lower_char a else upper_char a)
             (title_go cased s')
  end.
Definition title (s : string) : string := title_go false s.

(** [repr(s)] of a string, on ASCII (bytes from 128 up pass unchanged, as
    printable characters do): in single quotes, unless the string has a
    single quote and no double quote. *)
Definition hex_digit (n : nat) : ascii :=
  Ascii.ascii_of_nat (if (n <? 10)%nat then 48 + n else 87 + n).
Definition backslash : ascii := Ascii.ascii_of_nat 92.
Definition single_quote : ascii := Ascii.ascii_of_nat 39.
Definition double_quote : ascii := Ascii.ascii_of_nat 34.
Fixpoint repr_body (q : ascii) (s : string) : string :=
  match s with
  | EmptyString => EmptyString
  | String a s' =>
      let n := Ascii.nat_of_ascii a in
      let rest := repr_body q s' in
      if Ascii.eqb a q || Ascii.eqb a backslash then String backslash (String a rest)
      else if (n =? 9)%nat then String backslash (String "t"%char rest)
      else if (n =? 10)%nat then String backslash (String "n"%char rest)
      else if (n =? 13)%nat then String backslash (String "r"%char rest)
      else if (n <? 32)%nat || (n =? 127)%nat then
        String backslash (String "x"%char
          (String (hex_digit (n / 16)) (String (hex_digit (n mod 16)) rest)))
      else String a rest
  end.
Definition repr (s : string) : string :=
  let q := if contains (String single_quote EmptyString) s
              && negb (contains (String double_quote EmptyString) s)
           then double_quote else single_quote in
  String q (repr_body q s) +:+ String q EmptyString.

(** [' '.join(words)] *)
Fixpoint join (sep : string) (l : list string) : string :=
  match l with
  | [] => ""
  | [w] => w
  | w :: l' => w +:+ sep +:+ join sep l'
  end.

End PyStr.

(** ** [session_manager.py] *)
Module SessionManager.

(** JSON values, as [json.load] returns them and [json.dump] accepts them.
    Objects are Python dicts with string keys (equality of dicts ignores the
    insertion order, as [gmap] equality does). Numbers are integers here. *)
Inductive json : Type :=
| JNull
| JBool (b : bool)
| JNum (n : Z)
| JStr (s : string)
| JArr (l : list json)
| JObj (m : gmap string json).

(** A session state is a Python [Dict]. *)
Abbreviation pydict := (gmap string json).

(** What a file of the cache holds: a text that [json.load] parses to [j], or
    a text it rejects (an empty or truncated file, the prefix of a document
    left by a [json.dump] that raised). [json.load] after a completed
    [json.dump] of [j] gives [j] back. *)
Inductive content : Type :=
| Parsed (j : json)
| Unparsable.

(** An entry of [base_path]: a regular file (skipped by the cleanup) or a
    directory of files. *)
Inductive bnode : Type :=
| BFile
| BDir (d : gmap string content).

(** The content of [base_path]: entry name to entry. A path under
    [base_path] is a pair (directory name, file name). *)
Abbreviation fs := (gmap string bnode).
Abbreviation path := (string * string)%type.

(** [datetime] values are microseconds on the UTC time line, [timedelta]s
    are microseconds; [datetime.isoformat] and [datetime.fromisoformat] are
    the text codec of the Python library ([None]: the call raises). *)
Class IsoCodec := {
  isoformat : Z → string;
  fromisoformat : string → option Z
}.

Definition day_us : Z := 86400000000.

(** The length of [d] days, which is [timedelta(days=d)] for a [d] that the
    type holds. *)
Definition timedelta_days (d : Z) : Z := d * day_us.

(** The largest number of days of a [timedelta], either way. *)
Definition timedelta_max_days : Z := 999999999.

(** [timedelta(days=d)]; [None]: the call raises [OverflowError], [d] is
    beyond 999999999 days either way. *)
Definition timedelta (d : Z) : option Z :=
  if decide (- timedelta_max_days ≤ d ≤ timedelta_max_days)
  then Some (timedelta_days d) else None.

(** *** File-system primitives *)

(** [os.path.exists(p)] *)
Definition path_exists (p : path) (st : fs) : bool :=
  match st !! p.1 with
  | Some (BDir d) => bool_decide (is_Some (d !! p.2))
  | _ => false
  end.

(** The text read by [open(p, 'r')]; [None] when there is no such file. *)
Definition read_file (p : path) (st : fs) : option content :=
  match st !! p.1 with
  | Some (BDir d) => d !! p.2
  | _ => None
  end.

(** The file [p] holds [c] afterwards (its directory exists). *)
Definition write_file (p : path) (c : content) (st : fs) : fs :=
  match st !! p.1 with
  | Some (BDir d) => <[p.1 := BDir (<[p.2 := c]> d)]> st
  | _ => st
  end.

(** The file [p] is unlinked. *)
Definition remove_file (p : path) (st : fs) : fs :=
  match st !! p.1 with
  | Some (BDir d) => <[p.1 := BDir (delete p.2 d)]> st
  | _ => st
  end.

(** [os.makedirs(dir, exist_ok=True)]; [None]: it raises, a regular file is
    in the way. *)
Definition makedirs (dir : string) (st : fs) : option fs :=
  match st !! dir with
  | Some (BDir _) => Some st
  | Some BFile => None
  | None => Some (<[dir := BDir ∅]> st)
  end.

(** [os.remove(p)]; [None]: it raises, there is no such file. *)
Definition os_remove (p : path) (st : fs) : option fs :=
  if path_exists p st then Some (remove_file p st) else None.

(** [shutil.copy2(src, dst)] *)
Definition copy2 (src dst : path) (st : fs) : option fs :=
  match read_file src st with
  | Some c => Some (write_file dst c st)
  | None => None
  end.

(** [shutil.move(src, dst)] *)
Definition move (src dst : path) (st : fs) : option fs :=
  match read_file src st with
  | Some c => Some (remove_file src (write_file dst c st))
  | None => None
  end.

(** *** Paths *)

Definition get_user_session_dir (user_id : Z) : string := pretty user_id.

Definition get_store_session_path (user_id store_id : Z) : path :=
  (get_user_session_dir user_id,
   "store_" +:+ pretty store_id +:+ "_session.json").

(** *** [save_session] *)

(** Where the write of [save_session] fails, if it does: [open(.., 'w')]
    raises (the file is not touched), or [json.dump] raises after [open]
    has truncated the file. *)
Inductive write_fault : Type :=
| NoFault
| OpenFails
| DumpFails.

Section with_codec.
Context `{IsoCodec}.

(** The [_metadata] block stamped on a record. *)
Definition metadata (now user_id store_id : Z) : json :=
  JObj (<["created_at" := JStr (isoformat now)]>
       (<["user_id" := JNum user_id]>
       (<["store_id" := JNum store_id]> ∅))).

(** Returns the file system, the caller's dictionary as the call leaves it
    ([session_data] is mutated in place) and the returned flag. [now] is the
    reading of [datetime.utcnow()]. *)
Definition save_session (flt : write_fault) (now : Z) (user_id store_id : Z)
    (session_data : pydict) (st : fs) : fs * pydict * bool :=
  match makedirs (get_user_session_dir user_id) st with
  | None => (st, session_data, false)
  | Some st1 =>
      let session_path := get_store_session_path user_id store_id in
      let session_data' :=
        <["_metadata" := metadata now user_id store_id]> session_data in
      match flt with
      | OpenFails => (st1, session_data', false)
      | DumpFails => (write_file session_path Unparsable st1, session_data', false)
      | NoFault =>
          (write_file session_path (Parsed (JObj session_data')) st1,
           session_data', true)
      end
  end.

(** *** [delete_session] *)
Definition delete_session (user_id store_id : Z) (st : fs) : fs * bool :=
  let session_path := get_store_session_path user_id store_id in
  if path_exists session_path st
  then (remove_file session_path st, true)
  else (st, true).

(** *** [load_session] *)

Definition created_at_default : string := "2000-01-01T00:00:00".

(** [metadata = session_data.get('_metadata', {})] followed by
    [datetime.fromisoformat(metadata.get('created_at', '2000-01-01T00:00:00'))].
    [None]: one of the calls raises ([.get] on a value that is not a dict,
    [fromisoformat] on a value that is not a string or not a date). *)
Definition record_created_at (j : json) : option Z :=
  match j with
  | JObj session_data =>
      match default (JObj ∅) (session_data !! "_metadata") with
      | JObj metadata =>
          match default (JStr created_at_default) (metadata !! "created_at") with
          | JStr s => fromisoformat s
          | _ => None
          end
      | _ => None
      end
  | _ => None
  end.

(** [datetime.utcnow() - created_at > timedelta(days=max_age_days)] on the
    text of a file; [None]: one of the calls raises, the file cannot be
    read as a dated record or [max_age_days] is no [timedelta]. *)
Definition age_exceeds (now max_age_days : Z) (c : content) : option bool :=
  match c with
  | Parsed j =>
      match record_created_at j with
      | Some created_at =>
          match timedelta max_age_days with
          | Some limit => Some (limit <? now - created_at)
          | None => None
          end
      | None => None
      end
  | Unparsable => None
  end.

Definition load_session (now : Z) (user_id store_id : Z) (st : fs)
    : fs * option pydict :=
  let session_path := get_store_session_path user_id store_id in
  if negb (path_exists session_path st) then (st, None) else
  match read_file session_path st with
  | Some (Parsed (JObj session_data)) =>
      match record_created_at (JObj session_data) with
      | Some created_at =>
          (* [timedelta(days=7)] *)
          if timedelta_days 7 <? now - created_at
          then ((delete_session user_id store_id st).1, None)
          else (st, Some session_data)
      | None => (st, None)
      end
  | _ => (st, None)
  end.

(** *** [cleanup_expired_sessions] *)

(** [fnmatch] of a file name against ["store_*_session.json"]. *)
Definition is_session_file (name : string) : bool :=
  PyStr.startswith "store_" name && PyStr.endswith "_session.json" name
  && (19 <=? PyStr.len name).

(** [user_dir.glob("store_*_session.json")] *)
Definition glob_session_files (d : gmap string content) : gmap string content :=
  filter (λ kv, is_session_file kv.1 = true) d.

(** The body of the loop over the session files of one directory: the
    directory and the count so far go in and out. *)
Definition cleanup_file (now max_age_days : Z) (name : string) (c : content)
    (acc : gmap string content * nat) : gmap string content * nat :=
  match age_exceeds now max_age_days c with
  | Some true => (delete name acc.1, S acc.2)
  | _ => acc
  end.

(** The body of the loop over the entries of [base_path]. *)
Definition cleanup_user_dir (now max_age_days : Z) (name : string) (b : bnode)
    (acc : fs * nat) : fs * nat :=
  match b with
  | BFile => acc
  | BDir d =>
      let '(d', n) :=
        map_fold (cleanup_file now max_age_days) (d, acc.2) (glob_session_files d) in
      if bool_decide (d' = ∅)
      then (delete name acc.1, n)
      else (<[name := BDir d']> acc.1, n)
  end.

Definition cleanup_expired_sessions (now max_age_days : Z) (st : fs) : fs * nat :=
  map_fold (cleanup_user_dir now max_age_days) (st, 0%nat) st.

(** *** [rotate_session] *)

Definition backup_of (p : path) : path := (p.1, p.2 +:+ ".bak").

(** The [except] branch of [rotate_session]. *)
Definition rotate_restore (user_id store_id : Z) (st : fs) : fs :=
  let session_path := get_store_session_path user_id store_id in
  let backup_path := backup_of session_path in
  if path_exists backup_path st
  then default st (move backup_path session_path st)
  else st.

Definition rotate_session (flt : write_fault) (now : Z) (user_id store_id : Z)
    (new_session_data : pydict) (st : fs) : fs * pydict * bool :=
  let session_path := get_store_session_path user_id store_id in
  let backup_path := backup_of session_path in
  match (if path_exists session_path st
         then copy2 session_path backup_path st else Some st) with
  | None => (rotate_restore user_id store_id st, new_session_data, false)
  | Some st1 =>
      let '(st2, data', success) :=
        save_session flt now user_id store_id new_session_data st1 in
      if success && path_exists backup_path st2 then
        match os_remove backup_path st2 with
        | Some st3 => (st3, data', success)
        | None => (rotate_restore user_id store_id st2, data', false)
        end
      else (st2, data', success)
  end.

(** *** Notions used to state what the cleanup does *)

(** A session record past the threshold: a file whose name matches the
    pattern of the cleanup and whose age, as the cleanup reads it, exceeds
    [max_age_days]. *)
Definition expired (now max_age_days : Z) (kv : string * content) : Prop :=
  is_session_file kv.1 = true ∧ age_exceeds now max_age_days kv.2 = Some true.

#[global] Instance expired_dec now max_age_days kv :
  Decision (expired now max_age_days kv) :=
  and_dec (decide (is_session_file kv.1 = true))
          (decide (age_exceeds now max_age_days kv.2 = Some true)).





End with_codec.

(** A finite excerpt of the ISO-8601 codec (naive UTC datetimes, microseconds
    since 1970-01-01), enough to run the examples: the default creation date
    of [load_session] and three readings of the clock. *)
Definition t_2000_01_01 : Z := 946684800000000.
Definition t_2024_01_01 : Z := 1704067200000000.
Definition t_2024_01_08 : Z := 1704672000000000.
Definition t_2024_01_08_1s : Z := 1704672001000000.

Definition iso_table : list (Z * string) :=
  [ (t_2000_01_01, "2000-01-01T00:00:00");
    (t_2024_01_01, "2024-01-01T00:00:00");
    (t_2024_01_08, "2024-01-08T00:00:00");
    (t_2024_01_08_1s, "2024-01-08T00:00:01") ].

Definition sample_isoformat (t : Z) : string :=
  default "" (snd <$> List.find (λ e, bool_decide (e.1 = t)) iso_table).

Definition sample_fromisoformat (s : string) : option Z :=
  fst <$> List.find (λ e, bool_decide (e.2 = s)) iso_table.

Definition sample_codec : IsoCodec :=
  {| isoformat := sample_isoformat; fromisoformat := sample_fromisoformat |}.

(** Sample session states and caches for the examples. *)
Definition sample_state : pydict := {[ "cookies" := JArr [] ]}.
Definition sample_new_state : pydict := {[ "cookies" := JArr [JStr "sid=42"] ]}.

(** The record [save_session] writes for [sample_state] at time [created]. *)
Definition sample_record (created uid sid : Z) : content :=
  Parsed (JObj (<["_metadata" := @metadata sample_codec created uid sid]>
                sample_state)).

(** The cache after user 1 saved a session for store 1 on 2024-01-01. *)
Definition sample_cache : fs :=
  (@save_session sample_codec NoFault t_2024_01_01 1 1 sample_state ∅).1.1.

(** A cache with two user directories and a stray file: user 1 holds a
    record of 2024-01-01, a record of 2024-01-08 and a backup file, user 2
    holds one record that carries no metadata block. *)
Definition sample_user1_dir : gmap string content :=
  {[ "store_1_session.json" := sample_record t_2024_01_01 1 1;
     "store_2_session.json" := sample_record t_2024_01_08 1 2;
     "store_1_session.json.bak" := sample_record t_2024_01_01 1 1 ]}.

Definition sample_user2_dir : gmap string content :=
  {[ "store_7_session.json" := Parsed (JObj sample_state) ]}.

Definition sample_cleanup_cache : fs :=
  {[ "1" := BDir sample_user1_dir;
     "2" := BDir sample_user2_dir;
     ".gitkeep" := BFile ]}.

(** A base directory where a regular file has the name of user 1's
    directory. *)
Definition sample_blocked_cache : fs := {[ "1" := BFile ]}.

End SessionManager.


(** ** The browser: pages, semantic element queries, events *)
Module Browser.
Import SessionManager.

(** What a call on the page or on an element gives: a value, or an
    exception with its message. *)
Inductive outcome (A : Type) : Type :=
| Ok (a : A)
| Exn (msg : string).
Arguments Ok {A} a.
Arguments Exn {A} msg.

(** The AgentQL queries of the services (the two services word the same
    queries with [_btn] and [_button] field names). *)
Inductive query : Type :=
| STORE_INFO_QUERY
| INITIAL_MODAL_QUERY
| LOGIN_OPTIONS_MODAL_QUERY
| PASSWORD_MODAL_QUERY
| COUPON_NAV_QUERY
| COUPON_PAGE_QUERY.

(** The fields of the responses that the services act on. An element is
    known by the field it was found under and by its handle. *)
Inductive role : Type :=
| HeaderTitle
| HeaderSignIn
| WelcomeSignIn
| LoginEmailBox
| LoginPasswordBtn
| PasswordBox
| PasswordSignIn
| ClipBtn
| LoadMoreBtn.

Abbreviation handle := nat.

(** Responses: a field that the page does not show is [None]. *)
Record header : Type := {
  hdr_title : option handle;
  hdr_sign_in_btn : option handle
}.
Record store_info : Type := { si_header : option header }.

Record welcome_modal : Type := { wm_sign_in_btn : option handle }.
Record initial_modal : Type := { im_welcome_modal : option welcome_modal }.

Record login_modal : Type := {
  lm_email_box : option handle;
  lm_password_btn : option handle
}.
Record login_options : Type := { lo_login_modal : option login_modal }.

Record password_modal : Type := {
  pm_password_box : option handle;
  pm_sign_in_btn : option handle
}.
Record password_entry : Type := { pe_password_modal : option password_modal }.

Record nav_section : Type := { ns_nav_link : option handle }.
Record coupon_nav : Type := { cn_coupon_section : option nav_section }.

Record offer : Type := {
  title : string;
  description : string;
  savings : string;
  expiration : string;
  terms : string
}.
Record clip_btn : Type := {
  cb_handle : handle;
  cb_exists : bool;
  cb_is_clipped : bool
}.
Record coupon : Type := {
  c_offer : option offer;
  c_clip_btn : option clip_btn
}.
Record pagination : Type := { pg_load_more_btn : option handle }.
Record coupon_section : Type := {
  cs_heading : bool;
  cs_available_coupons : option (list coupon);
  cs_pagination : option pagination
}.
Record coupon_page : Type := { cp_coupon_section : option coupon_section }.

(** A page under the driver: a state and what each call of the driver does
    to it and gets from it. [storage_state] is what
    [context.storage_state()] serialises (cookies and origins). *)
Class Page : Type := {
  pstate : Type;
  page_goto : string → pstate → pstate * outcome unit;
  page_wait_for_page_ready_state : pstate → pstate * outcome unit;
  page_wait_for_timeout : Z → pstate → pstate * outcome unit;
  page_url : pstate → string;
  page_content : pstate → pstate * outcome string;
  query_store_info : pstate → pstate * outcome (option store_info);
  query_initial_modal : pstate → pstate * outcome (option initial_modal);
  query_login_options : pstate → pstate * outcome (option login_options);
  query_password_modal : pstate → pstate * outcome (option password_entry);
  query_coupon_nav : pstate → pstate * outcome (option coupon_nav);
  query_coupon_page : pstate → pstate * outcome (option coupon_page);
  element_click : role → handle → pstate → pstate * outcome unit;
  element_fill : role → handle → string → pstate → pstate * outcome unit;
  element_text_content : role → handle → pstate → pstate * outcome string;
  element_get_attribute :
    role → handle → string → pstate → pstate * outcome (option string);
  storage_state : pstate → pydict
}.

(** What a run does, in order: the calls on the page, the writes of the
    session cache and the log records. *)
Inductive level : Type := DEBUG | INFO | WARNING | ERROR.

Inductive event : Type :=
| ELog (lvl : level) (msg : string)
| EGoto (url : string)
| EReady
| EWait (ms : Z)
| EContent
| EQuery (q : query)
| EClick (r : role) (h : handle)
| EFill (r : role) (h : handle) (text : string)
| ETextContent (r : role) (h : handle)
| EGetAttribute (r : role) (h : handle) (name : string)
| EStorageState (p : path)
| ELaunch
| EContextClose
| EBrowserClose.

#[global] Instance query_eq_dec : EqDecision query.
Proof. solve_decision. Defined.
#[global] Instance role_eq_dec : EqDecision role.
Proof. solve_decision. Defined.
#[global] Instance level_eq_dec : EqDecision level.
Proof. solve_decision. Defined.
#[global] Instance event_eq_dec : EqDecision event.
Proof. solve_decision. Defined.

(** The state a run acts on: the page and the session directory. *)
Record world `{Page} : Type := World {
  w_page : pstate;
  w_files : fs
}.
Arguments World {_} _ _.

(** How a block of statements ends: it falls through with a value, it
    executes [return r], it raises, or (for a [while True] loop run with a
    bound on its iterations) the bound is used up before the loop ends. *)
Inductive res (R A : Type) : Type :=
| Next (a : A)
| Return (r : R)
| Raise (msg : string)
| Diverge.
Arguments Next {R A} a.
Arguments Return {R A} r.
Arguments Raise {R A} msg.
Arguments Diverge {R A}.

(** A block of statements of a function with results in [R]. *)
Definition M `{Page} (R A : Type) : Type := world → world * list event * res R A.

Section monad.
Context `{Page} {R : Type}.

Definition ret {A} (a : A) : M R A := λ w, (w, [], Next a).

Definition bind {A B} (m : M R A) (k : A → M R B) : M R B := λ w,
  match m w with
  | (w1, e1, Next a) => let '(w2, e2, r) := k a w1 in (w2, e1 ++ e2, r)
  | (w1, e1, Return r) => (w1, e1, Return r)
  | (w1, e1, Raise x) => (w1, e1, Raise x)
  | (w1, e1, Diverge) => (w1, e1, Diverge)
  end.

(** [return r] *)
Definition return_ {A} (r : R) : M R A := λ w, (w, [], Return r).

(** [raise] *)
Definition raise {A} (msg : string) : M R A := λ w, (w, [], Raise msg).

(** [try: body except Exception as e: handler(str(e))] *)
Definition try_ {A} (body : M R A) (handler : string → M R A) : M R A := λ w,
  match body w with
  | (w1, e1, Raise x) => let '(w2, e2, r) := handler x w1 in (w2, e1 ++ e2, r)
  | other => other
  end.

(** [try: body finally: fin] *)
Definition finally_ {A} (body : M R A) (fin : M R unit) : M R A := λ w,
  let '(w1, e1, r) := body w in
  let '(w2, e2, _) := fin w1 in
  (w2, e1 ++ e2, r).

(** The bound on the iterations is used up. *)
Definition diverge {A} : M R A := λ w, (w, [], Diverge).

Definition emit (e : event) : M R unit := λ w, (w, [e], Next ()).

(** [logger.<lvl>(msg)] *)
Definition log (lvl : level) (msg : string) : M R unit := emit (ELog lvl msg).

(** A call on the page, recorded as [e]. *)
Definition page_call {A} (e : event) (f : pstate → pstate * outcome A) : M R A :=
  λ w,
  let '(s, o) := f (w_page w) in
  (World s (w_files w), [e],
   match o with Ok a => Next a | Exn msg => Raise msg end).

(** A step on the session directory that may raise. *)
Definition files_call (e : list event) (f : fs → option fs) (msg : string)
    : M R unit :=
  λ w,
  match f (w_files w) with
  | Some st => (World (w_page w) st, e, Next ())
  | None => (w, e, Raise msg)
  end.

(** A look at the session directory, and at the page. *)
Definition get_files : M R fs := λ w, (w, [], Next (w_files w)).
Definition get_page : M R pstate := λ w, (w, [], Next (w_page w)).

(** A value that may be an exception. *)
Definition of_outcome {A} (o : outcome A) : M R A :=
  match o with Ok a => ret a | Exn msg => raise msg end.

End monad.

(** The call of a function whose body is [body]. *)
Definition call `{Page} {R R'} (body : M R R) : M R' R := λ w,
  match body w with
  | (w1, e1, Next r) => (w1, e1, Next r)
  | (w1, e1, Return r) => (w1, e1, Next r)
  | (w1, e1, Raise x) => (w1, e1, Raise x)
  | (w1, e1, Diverge) => (w1, e1, Diverge)
  end.

End Browser.

(** ** Judgments on blocks of statements

    [sat m Q V VR VX D]: whatever the state [m] starts in, every event it
    emits satisfies [Q], and its result satisfies [V] when it falls through,
    [VR] when it returns, [VX] when it raises and [D] when it is cut short.
    [guard a ..]: the same on the result, for the runs that emit [a].
    [always b]: every run emits [b]. [leads a b]: every run that emits [a]
    emits [b]. [only_after b ..]: every run whose result is as described
    emits [b]. *)
Module Judgments.
Import Browser.

Section judgments.
Context `{Page} {R A : Type}.

Definition events_of (m : M R A) (w : world) : list event := (m w).1.2.
Definition result_of (m : M R A) (w : world) : res R A := (m w).2.

Definition post (V : A → Prop) (VR : R → Prop) (VX : string → Prop) (D : Prop)
    (r : res R A) : Prop :=
  match r with
  | Next a => V a
  | Return r => VR r
  | Raise x => VX x
  | Diverge => D
  end.

Definition sat (m : M R A) (Q : event → Prop)
    (V : A → Prop) (VR : R → Prop) (VX : string → Prop) (D : Prop) : Prop :=
  ∀ w, Forall Q (events_of m w) ∧ post V VR VX D (result_of m w).


Definition always (b : event) (m : M R A) : Prop :=
  ∀ w, b ∈ events_of m w.


Definition only_after (b : event) (m : M R A)
    (V : A → Prop) (VR : R → Prop) (VX : string → Prop) (D : Prop) : Prop :=
  ∀ w, post V VR VX D (result_of m w) → b ∈ events_of m w.

End judgments.




End Judgments.

(** ** [schemas/store.py] *)
Module Schemas.

Record StoreCredentials : Type := {
  username : option string;
  email : option string;
  password : string
}.

(** [url] is the text that [str(discovery_config.url)] gives. *)
Record StoreDiscovery : Type := {
  url : string;
  discovery_credentials : StoreCredentials
}.

(** [base_url] and [login_url] hold the text that [str()] gives of them. *)
Record StoreConfig : Type := {
  id : option Z;
  name : string;
  base_url : string;
  login_url : string;
  credentials : option StoreCredentials
}.

End Schemas.

(** ** The built-in [hash] of a [str]

    CPython (3.11 and later) hashes the bytes of a string with SipHash-1-3
    under a 128-bit key [(k0, k1)] that the interpreter draws when it starts:
    from the system's random source by default, from the seed when
    [PYTHONHASHSEED] is set. Strings here are one byte per character. *)
Module PyHash.

Definition mask64 : Z := 2 ^ 64 - 1.
Definition add64 (a b : Z) : Z := Z.land (a + b) mask64.
Definition rotl64 (x b : Z) : Z :=
  Z.land (Z.lor (Z.shiftl x b) (Z.shiftr x (64 - b))) mask64.

Record sip : Type := Sip { v0 : Z; v1 : Z; v2 : Z; v3 : Z }.

Definition sipround (s : sip) : sip :=
  let v0 := add64 (v0 s) (v1 s) in
  let v1 := Z.lxor (rotl64 (v1 s) 13) v0 in
  let v0 := rotl64 v0 32 in
  let v2 := add64 (v2 s) (v3 s) in
  let v3 := Z.lxor (rotl64 (v3 s) 16) v2 in
  let v0 := add64 v0 v3 in
  let v3 := Z.lxor (rotl64 v3 21) v0 in
  let v2 := add64 v2 v1 in
  let v1 := Z.lxor (rotl64 v1 17) v2 in
  let v2 := rotl64 v2 32 in
  Sip v0 v1 v2 v3.

(** Little-endian value of a list of bytes. *)
Fixpoint le_bytes (l : list Z) : Z :=
  match l with
  | [] => 0
  | b :: l' => b + 256 * le_bytes l'
  end.

(** The 8-byte words of the input, then the last word with the length in
    its top byte. *)
Fixpoint sip_blocks (fuel : nat) (s : sip) (data : list Z) (len : Z) : sip :=
  match fuel with
  | O => s
  | S fuel' =>
      if (8 <=? List.length data)%nat then
        let mi := le_bytes (firstn 8 data) in
        let s1 := sipround (Sip (v0 s) (v1 s) (v2 s) (Z.lxor (v3 s) mi)) in
        sip_blocks fuel' (Sip (Z.lxor (v0 s1) mi) (v1 s1) (v2 s1) (v3 s1))
          (skipn 8 data) len
      else
        let b := Z.lor (Z.land (Z.shiftl len 56) mask64) (le_bytes data) in
        let s1 := sipround (Sip (v0 s) (v1 s) (v2 s) (Z.lxor (v3 s) b)) in
        Sip (Z.lxor (v0 s1) b) (v1 s1) (v2 s1) (v3 s1)
  end.

Definition siphash13 (k0 k1 : Z) (data : list Z) : Z :=
  let s := Sip (Z.lxor k0 0x736f6d6570736575) (Z.lxor k1 0x646f72616e646f6d)
               (Z.lxor k0 0x6c7967656e657261) (Z.lxor k1 0x7465646279746573) in
  let s := sip_blocks (S (List.length data)) s data (Z.of_nat (List.length data)) in
  let s := Sip (v0 s) (v1 s) (Z.lxor (v2 s) 0xff) (v3 s) in
  let s := sipround (sipround (sipround s)) in
  Z.lxor (Z.lxor (v0 s) (v1 s)) (Z.lxor (v2 s) (v3 s)).

Fixpoint bytes_of (s : string) : list Z :=
  match s with
  | EmptyString => []
  | String a s' => Z.of_nat (Ascii.nat_of_ascii a) :: bytes_of s'
  end.

(** [hash(s)] in a process whose key is [(k0, k1)]: a signed 64-bit value,
    0 for the empty string, never -1. *)
Definition py_hash (key : Z * Z) (s : string) : Z :=
  match s with
  | EmptyString => 0
  | _ =>
      let x := siphash13 key.1 key.2 (bytes_of s) in
      let x := if 2 ^ 63 <=? x then x - 2 ^ 64 else x in
      if x =? -1 then -2 else x
  end.

(** The key of a process started with [PYTHONHASHSEED=seed], [0 < seed]: 16
    bytes of a linear congruential generator. *)
Fixpoint lcg_bytes (n : nat) (x : Z) : list Z :=
  match n with
  | O => []
  | S n' =>
      let x := (x * 214013 + 2531011) mod 2 ^ 32 in
      Z.land (Z.shiftr x 16) 255 :: lcg_bytes n' x
  end.

Definition key_of_seed (seed : Z) : Z * Z :=
  let b := lcg_bytes 16 seed in
  (le_bytes (firstn 8 b), le_bytes (skipn 8 b)).

End PyHash.

Declare Scope flow_scope.
Delimit Scope flow_scope with flow.
Notation "x ← y ; z" := (Browser.bind y (λ x, z))
  (at level 20, y at level 100, z at level 200, only parsing) : flow_scope.
Notation "x ;; z" := (Browser.bind x (λ _, z))
  (at level 100, z at level 200, only parsing, right associativity) : flow_scope.

(** ** [services/coupon_service.py] *)
Module CouponService.
Import SessionManager Browser.



(** [store_config.id or hash(str(store_config.base_url))] in a process
    whose hash key is [key]. *)
Definition store_id_of (key : Z * Z) (store_config : Schemas.StoreConfig) : Z :=
  match Schemas.id store_config with
  | Some i => if i =? 0 then PyHash.py_hash key (Schemas.base_url store_config) else i
  | None => PyHash.py_hash key (Schemas.base_url store_config)
  end.

(** [any(x in current_url for x in ['/signin', '/login', '/account/sign-in'])] *)
Definition on_login_page (current_url : string) : bool :=
  existsb (λ x, PyStr.contains x current_url)
    ["/signin"; "/login"; "/account/sign-in"].


Section service.
Context `{Page}.
Local Open Scope flow_scope.

(** The calls on the page. *)
Definition wait_for_timeout {R} (ms : Z) : M R unit :=
  page_call (EWait ms) (page_wait_for_timeout ms).
Definition wait_for_page_ready_state {R} : M R unit :=
  page_call EReady page_wait_for_page_ready_state.
Definition goto {R} (u : string) : M R unit := page_call (EGoto u) (page_goto u).
Definition content {R} : M R string := page_call EContent page_content.
Definition click {R} (r : role) (h : handle) : M R unit :=
  page_call (EClick r h) (element_click r h).
Definition fill {R} (r : role) (h : handle) (text : string) : M R unit :=
  page_call (EFill r h text) (element_fill r h text).
Definition q_store_info {R} : M R (option store_info) :=
  page_call (EQuery STORE_INFO_QUERY) query_store_info.
Definition q_initial_modal {R} : M R (option initial_modal) :=
  page_call (EQuery INITIAL_MODAL_QUERY) query_initial_modal.
Definition q_login_options {R} : M R (option login_options) :=
  page_call (EQuery LOGIN_OPTIONS_MODAL_QUERY) query_login_options.
Definition q_password_modal {R} : M R (option password_entry) :=
  page_call (EQuery PASSWORD_MODAL_QUERY) query_password_modal.

(** [context.storage_state(path=p)]: the state of the browser context is
    written to [p]; it raises when the directory of [p] is not there. *)
Definition storage_state_to {R} (p : path) : M R unit :=
  s ← get_page ;
  files_call [EStorageState p]
    (λ st, match st !! p.1 with
           | Some (BDir _) => Some (write_file p (Parsed (JObj (storage_state s))) st)
           | _ => None
           end)
    "No such file or directory".

(** [os.makedirs(dir, exist_ok=True)] *)
Definition os_makedirs {R} (dir : string) : M R unit :=
  files_call [] (makedirs dir) "File exists".

Definition _wait_for_page_ready {R} : M R unit :=
  try_ (wait_for_page_ready_state ;; wait_for_timeout 2000)
       (λ e, log WARNING ("Page ready state wait failed: " +:+ e)).

(** The loop of [_wait_for_elements]: [n] iterations are left,
    [retry_count] are done. *)
Fixpoint wait_for_elements_loop {A} (q : M (option A) (option A)) (n : nat)
    (retry_count : Z) : M (option A) (option A) :=
  match n with
  | O => ret None
  | S n' =>
      try_ (elements ← q ;
            match elements with
            | Some _ => return_ elements
            | None => ret ()
            end)
           (λ e, log WARNING ("Attempt " +:+ pretty (retry_count + 1)
                              +:+ " failed to find elements: " +:+ e)) ;;
      wait_for_timeout 1000 ;;
      wait_for_elements_loop q n' (retry_count + 1)
  end.

Definition _wait_for_elements {R A} (q : M (option A) (option A))
    (max_retries : nat) : M R (option A) :=
  call (wait_for_elements_loop q max_retries 0).

Definition _wait_and_click {R} (r : role) (element : option handle)
    (delay_ms : Z) : M R bool :=
  match element with
  | Some h =>
      try_ (wait_for_timeout delay_ms ;; click r h ;; ret true)
           (λ e, log WARNING ("Failed to click element: " +:+ e) ;; ret false)
  | None => ret false
  end.

(** The loop that waits for the login to complete: [n] iterations are
    left, [retry_count] are done. *)
Fixpoint verify_loop (n : nat) (retry_count : Z) : M bool unit :=
  match n with
  | O => ret ()
  | S n' =>
      _wait_for_page_ready ;;
      s ← get_page ;
      let current_url := PyStr.lower (page_url s) in
      if on_login_page current_url then
        log WARNING ("Still on login page after " +:+ pretty (retry_count + 1)
                     +:+ " attempts") ;;
        wait_for_timeout 1000 ;;
        verify_loop n' (retry_count + 1)
      else
        verify_elements ← q_store_info ;
        match verify_elements ≫= si_header with
        | Some hdr =>
            match hdr_sign_in_btn hdr with
            | None =>
                log INFO "Login successful - sign in button no longer present" ;;
                return_ true
            | Some _ =>
                log WARNING "Sign in button still present after login attempt"
            end
        | None =>
            log WARNING "Could not verify header elements after login attempt"
        end ;;
        wait_for_timeout 1000 ;;
        verify_loop n' (retry_count + 1)
  end.

Definition _handle_login_flow {R} (store_config : Schemas.StoreConfig) : M R bool :=
  call (try_ (
    log INFO "Waiting for initial page load..." ;;
    _wait_for_page_ready ;;
    (* Step 1 *)
    elements ← _wait_for_elements q_store_info 3 ;
    hdr ← match elements ≫= si_header with
          | Some hdr => ret hdr
          | None =>
              log ERROR "Could not find header section after retries" ;;
              try_ (c ← content ;
                    log DEBUG ("Page content: " +:+ PyStr.take 500 c +:+ "..."))
                   (λ e, log ERROR ("Failed to get page content: " +:+ e)) ;;
              return_ false
          end ;
    sign_in_btn ← match hdr_sign_in_btn hdr with
                  | Some b => ret b
                  | None =>
                      log ERROR "Could not find sign in button in header after retries" ;;
                      return_ false
                  end ;
    log INFO "Clicking initial sign in button" ;;
    _wait_and_click HeaderSignIn (Some sign_in_btn) 500 ;;
    _wait_for_page_ready ;;
    (* Step 2 *)
    welcome_elements ← q_initial_modal ;
    match welcome_elements ≫= im_welcome_modal with
    | Some wm =>
        match wm_sign_in_btn wm with
        | Some b =>
            log INFO "Found welcome modal, clicking sign in" ;;
            _wait_and_click WelcomeSignIn (Some b) 500 ;;
            _wait_for_page_ready
        | None => log WARNING "Welcome modal found but missing sign in button"
        end
    | None => ret ()
    end ;;
    (* Step 3 *)
    login_elements ← q_login_options ;
    lm ← match login_elements ≫= lo_login_modal with
         | Some lm => ret lm
         | None => log ERROR "Could not find login modal" ;; return_ false
         end ;
    log INFO "Found login options modal" ;;
    email_box ← match lm_email_box lm with
                | Some b => ret b
                | None => log ERROR "Could not find email input field" ;; return_ false
                end ;
    creds ← match Schemas.credentials store_config with
            | Some c => ret c
            | None => raise "'NoneType' object has no attribute 'email'"
            end ;
    email ← match Schemas.email creds with
            | Some e => ret e
            | None => raise "expected string, got NoneType"
            end ;
    fill LoginEmailBox email_box email ;;
    log INFO "Entered email" ;;
    password_btn ← match lm_password_btn lm with
                   | Some b => ret b
                   | None => log ERROR "Could not find password button" ;; return_ false
                   end ;
    _wait_and_click LoginPasswordBtn (Some password_btn) 500 ;;
    _wait_for_page_ready ;;
    log INFO "Selected password login option" ;;
    (* Step 4 *)
    password_elements ← q_password_modal ;
    pm ← match password_elements ≫= pe_password_modal with
         | Some pm => ret pm
         | None => log ERROR "Could not find password modal" ;; return_ false
         end ;
    log INFO "Found password modal" ;;
    password_box ← match pm_password_box pm with
                   | Some b => ret b
                   | None =>
                       log ERROR "Could not find password input field" ;;
                       return_ false
                   end ;
    fill PasswordBox password_box (Schemas.password creds) ;;
    log INFO "Entered password" ;;
    submit ← match pm_sign_in_btn pm with
             | Some b => ret b
             | None =>
                 log ERROR "Could not find sign in button in password modal" ;;
                 return_ false
             end ;
    _wait_and_click PasswordSignIn (Some submit) 500 ;;
    log INFO "Clicked sign in button" ;;
    (* Wait for login to complete and verify *)
    verify_loop 5 0 ;;
    log ERROR "Failed to verify login completion after maximum retries" ;;
    ret false)
  (λ e, log ERROR ("Error during login flow: " +:+ e) ;; ret false)).







End service.



(** The header sign-in affordance has disappeared: the page, in some state
    in which it is not on a login URL, answers the header query with a
    header that has no sign-in button. *)
Definition header_sign_in_gone `{Page} : Prop :=
  ∃ s x hdr, on_login_page (PyStr.lower (page_url s)) = false ∧
    (query_store_info s).2 = Ok x ∧ x ≫= si_header = Some hdr ∧
    hdr_sign_in_btn hdr = None.

(** How the loop that waits for the login to complete may end: it falls
    through (no turn succeeded), it raises, or it returns from the function
    with [True] after a turn that saw the sign-in affordance gone. *)
Definition header_checked `{Page} (r : res bool unit) : Prop :=
  match r with
  | Next _ => True
  | Return b => b = true ∧ header_sign_in_gone
  | Raise _ => True
  | Diverge => False
  end.


End CouponService.

(** ** [services/store_discovery.py] *)
Module StoreDiscovery.
Import SessionManager Browser.
Import CouponService.

(** Library calls of the service: [urllib.parse.urljoin] and the validation
    of a [pydantic.HttpUrl] field, which gives the text of the validated
    URL or fails. *)
Class UrlLib : Type := {
  urljoin : string → string → string;
  http_url : string → option string
}.

(** [urlparse(u).scheme] and [urlparse(u).netloc] of an absolute URL. *)
Definition url_scheme (u : string) : string :=
  match PyStr.partition "://" u with Some (sch, _) => sch | None => "" end.
Definition url_netloc (u : string) : string :=
  match PyStr.partition "://" u with
  | Some (_, rest) => PyStr.before "#" (PyStr.before "?" (PyStr.before "/" rest))
  | None => ""
  end.

(** [str(credentials)] of a [StoreCredentials] model: the fields in the
    order of their declaration, each as [name=repr(value)]. *)
Definition repr_opt (o : option string) : string :=
  match o with Some v => PyStr.repr v | None => "None" end.
Definition str_credentials (c : Schemas.StoreCredentials) : string :=
  "username=" +:+ repr_opt (Schemas.username c)
  +:+ " email=" +:+ repr_opt (Schemas.email c)
  +:+ " password=" +:+ PyStr.repr (Schemas.password c).

Definition common_suffixes : list string :=
  [ "| Official Site"; "| Home"; "| Online Grocery Shopping";
    "- Official Site"; "- Home"; "- Online Grocery Shopping" ].

(** [for suffix in common_suffixes: if store_name.endswith(suffix): ...] *)
Definition strip_suffixes (store_name : string) : string :=
  fold_left (λ nm suffix,
    if PyStr.endswith suffix nm
    then PyStr.drop_last (String.length suffix) nm else nm)
    common_suffixes store_name.

Definition clean_title (raw : string) : string :=
  PyStr.strip (PyStr.join " " (PyStr.split (strip_suffixes raw))).

Section service.
Context `{Page} `{UrlLib}.
Local Open Scope flow_scope.

Definition text_content {R} (r : role) (h : handle) : M R string :=
  page_call (ETextContent r h) (element_text_content r h).
Definition get_attribute {R} (r : role) (h : handle) (a : string)
    : M R (option string) :=
  page_call (EGetAttribute r h a) (element_get_attribute r h a).

Definition _wait_for_page_ready {R} : M R unit :=
  try_ (wait_for_page_ready_state ;; wait_for_timeout 500)
       (λ e, log WARNING ("Page ready state wait failed: " +:+ e)).

(** [analyze_store] in a process whose hash key is [key]. *)
Definition analyze_store {R} (key : Z * Z) (discovery_config : Schemas.StoreDiscovery)
    : M R (option Schemas.StoreConfig) :=
  let url := Schemas.url discovery_config in
  call (
    emit ELaunch ;;
    finally_ (
      try_ (
        log INFO "Browser launched and page wrapped with AgentQL" ;;
        wait_for_timeout (1000 + PyHash.py_hash key url mod 1000) ;;
        log INFO ("Attempting to navigate to URL: " +:+ url) ;;
        goto url ;;
        _wait_for_page_ready ;;
        log INFO "Page loaded successfully" ;;
        elements ← q_store_info ;
        log INFO "Found store elements" ;;
        hdr ← match elements ≫= si_header with
              | Some hdr => ret hdr
              | None => log ERROR "Could not find header elements" ;; return_ None
              end ;
        (* Get store name from page title *)
        store_name ←
          match hdr_title hdr with
          | Some t =>
              try_ (raw ← text_content HeaderTitle t ; ret (clean_title raw))
                   (λ e, log WARNING ("Could not get page title: " +:+ e) ;; ret "")
          | None => ret ""
          end ;
        store_name ←
          (if String.eqb store_name "" then
             let fallback := PyStr.title (PyStr.before "." (url_netloc url)) in
             log INFO ("Using fallback store name: " +:+ fallback) ;;
             ret fallback
           else ret store_name) ;
        (* Get sign in button and extract login URL *)
        let base_url := url_scheme url +:+ "://" +:+ url_netloc url in
        let domain := PyStr.lower (url_netloc url) in
        login_url ←
          match hdr_sign_in_btn hdr with
          | Some b =>
              try_ (href ← get_attribute HeaderSignIn b "href" ;
                    match href with
                    | Some h =>
                        if negb (String.eqb h "") && negb (PyStr.startswith "http" h)
                        then ret (urljoin base_url h) else ret h
                    | None => ret ""
                    end)
                   (λ e, log WARNING ("Could not get href from sign in button: " +:+ e) ;;
                         ret "")
          | None => ret ""
          end ;
        login_url ←
          (if String.eqb login_url "" then
             if PyStr.contains "albertsons" domain then
               log INFO "Using Albertsons-specific login URL" ;;
               ret (base_url +:+ "/account/sign-in")
             else
               log INFO "Using default fallback login URL" ;;
               ret (base_url +:+ "/signin")
           else ret login_url) ;
        log INFO ("Final login URL: " +:+ login_url) ;;
        (* Create store config *)
        base ← match http_url base_url with
               | Some u => ret u
               | None => raise "1 validation error for StoreConfig: base_url"
               end ;
        login ← match http_url login_url with
                | Some u => ret u
                | None => raise "1 validation error for StoreConfig: login_url"
                end ;
        let store_config :=
          {| Schemas.id := None; Schemas.name := store_name;
             Schemas.base_url := base; Schemas.login_url := login;
             Schemas.credentials := Some (Schemas.discovery_credentials discovery_config) |} in
        log INFO ("Created store config with credentials: "
                  +:+ str_credentials (Schemas.discovery_credentials discovery_config)) ;;
        ret (Some store_config))
      (λ e, log ERROR ("Failed during store analysis: " +:+ e) ;; ret None))
    (emit EContextClose ;; emit EBrowserClose)).

Definition _handle_login_flow {R} (store_config : Schemas.StoreConfig) : M R bool :=
  call (try_ (
    (* Step 1 *)
    elements ← q_store_info ;
    match (elements ≫= si_header) ≫= hdr_sign_in_btn with
    | Some b =>
        log INFO "Clicking initial sign in button" ;;
        _wait_and_click HeaderSignIn (Some b) 500 ;;
        _wait_for_page_ready
    | None => ret ()
    end ;;
    (* Step 2 *)
    welcome_elements ← q_initial_modal ;
    match welcome_elements ≫= im_welcome_modal with
    | Some wm =>
        log INFO "Found welcome modal, clicking sign in" ;;
        _wait_and_click WelcomeSignIn (wm_sign_in_btn wm) 500 ;;
        _wait_for_page_ready
    | None => ret ()
    end ;;
    (* Step 3 *)
    login_elements ← q_login_options ;
    match login_elements ≫= lo_login_modal with
    | Some lm =>
        log INFO "Found login options modal" ;;
        match lm_email_box lm with
        | Some b =>
            creds ← match Schemas.credentials store_config with
                    | Some c => ret c
                    | None => raise "'NoneType' object has no attribute 'email'"
                    end ;
            email ← match Schemas.email creds with
                    | Some e => ret e
                    | None => raise "expected string, got NoneType"
                    end ;
            fill LoginEmailBox b email ;;
            log INFO "Entered email"
        | None => ret ()
        end ;;
        match lm_password_btn lm with
        | Some b =>
            _wait_and_click LoginPasswordBtn (Some b) 500 ;;
            _wait_for_page_ready ;;
            log INFO "Selected password login option"
        | None => ret ()
        end
    | None => ret ()
    end ;;
    (* Step 4 *)
    password_elements ← q_password_modal ;
    match password_elements ≫= pe_password_modal with
    | Some pm =>
        log INFO "Found password modal" ;;
        match pm_password_box pm with
        | Some b =>
            creds ← match Schemas.credentials store_config with
                    | Some c => ret c
                    | None => raise "'NoneType' object has no attribute 'password'"
                    end ;
            fill PasswordBox b (Schemas.password creds) ;;
            log INFO "Entered password"
        | None => ret ()
        end ;;
        match pm_sign_in_btn pm with
        | Some b =>
            _wait_and_click PasswordSignIn (Some b) 500 ;;
            _wait_for_page_ready ;;
            log INFO "Submitted login form"
        | None => ret ()
        end ;;
        return_ true
    | None => ret ()
    end ;;
    ret false)
  (λ e, log ERROR ("Error during login flow: " +:+ e) ;; ret false)).

(** [verify_login] in a process whose hash key is [key]. *)
Definition verify_login {R} (key : Z * Z) (store_config : Schemas.StoreConfig)
    (user_id : Z) : M R bool :=
  call (
    emit ELaunch ;;
    finally_ (
      try_ (
        log INFO "Browser launched and page wrapped with AgentQL" ;;
        log INFO ("Navigating to main URL: " +:+ Schemas.base_url store_config) ;;
        goto (Schemas.base_url store_config) ;;
        _wait_for_page_ready ;;
        login_success ← _handle_login_flow store_config ;
        (if login_success then ret ()
         else log ERROR "Failed to complete login flow" ;; return_ false) ;;
        (* Verify successful login *)
        try_ (
          _wait_for_page_ready ;;
          s ← get_page ;
          let current_url := page_url s in
          (if on_login_page (PyStr.lower current_url) then
             log ERROR "Still on login page after submission - login likely failed" ;;
             return_ false
           else ret ()) ;;
          log INFO ("Successfully navigated to: " +:+ current_url) ;;
          let session_dir := get_user_session_dir user_id in
          os_makedirs session_dir ;;
          let store_id := store_id_of key store_config in
          let session_file := get_store_session_path user_id store_id in
          storage_state_to session_file ;;
          log INFO ("Cached authenticated session for user " +:+ pretty user_id
                    +:+ " to: " +:+ session_file.1 +:+ "/" +:+ session_file.2) ;;
          return_ true)
        (λ e, log ERROR ("Error during post-login verification: " +:+ e) ;;
              return_ false))
      (λ e, log ERROR ("Failed during login verification: " +:+ e) ;; ret false))
    (emit EContextClose ;; emit EBrowserClose)).

(** [load_cached_session] in a process whose hash key is [key]. *)
Definition load_cached_session {R} (key : Z * Z) (store_config : Schemas.StoreConfig)
    (user_id : Z) : M R bool :=
  call (try_ (
    let store_id := store_id_of key store_config in
    let session_file := get_store_session_path user_id store_id in
    st ← get_files ;
    if path_exists session_file st then
      storage_state_to session_file ;;
      log INFO ("Loaded cached session for user " +:+ pretty user_id
                +:+ " from: " +:+ session_file.1 +:+ "/" +:+ session_file.2) ;;
      ret true
    else
      log WARNING ("No cached session found for user " +:+ pretty user_id
                   +:+ " and store: " +:+ Schemas.name store_config) ;;
      ret false)
  (λ e, log ERROR ("Failed to load cached session: " +:+ e) ;; ret false)).

End service.
End StoreDiscovery.

(** ** A scripted retail site, to run the services on

    The site shows a header with a title and, to a visitor who is not signed
    in, a sign-in link; the sign-in link opens (after an optional welcome
    modal) the login options modal, the password option opens the password
    modal when the site has one, and the submit signs the visitor in when
    the site accepts the credentials typed. The coupon page lists the
    offers of the site on one page. *)
Module Site.
Import SessionManager Browser.

Record site : Type := {
  site_title : string;
  site_href : option string;
  site_welcome : bool;
  site_password_modal : bool;
  site_accepts : string → string → bool;
  site_url_after_reject : string;
  site_home : string;
  site_nav : bool;
  (** the offers, each with whether a click on its button clips it *)
  site_offers : list (offer * bool)
}.

Inductive stage : Type := Home | WelcomeShown | LoginShown | PasswordShown.

Record sstate : Type := {
  s_url : string;
  s_stage : stage;
  s_email : string;
  s_password : string;
  s_authed : bool;
  s_clipped : list string
}.

Definition initial : sstate :=
  {| s_url := "about:blank"; s_stage := Home; s_email := ""; s_password := "";
     s_authed := false; s_clipped := [] |}.

Definition set_url (u : string) (s : sstate) : sstate :=
  {| s_url := u; s_stage := s_stage s; s_email := s_email s;
     s_password := s_password s; s_authed := s_authed s; s_clipped := s_clipped s |}.
Definition set_stage (g : stage) (s : sstate) : sstate :=
  {| s_url := s_url s; s_stage := g; s_email := s_email s;
     s_password := s_password s; s_authed := s_authed s; s_clipped := s_clipped s |}.
Definition set_email (e : string) (s : sstate) : sstate :=
  {| s_url := s_url s; s_stage := s_stage s; s_email := e;
     s_password := s_password s; s_authed := s_authed s; s_clipped := s_clipped s |}.
Definition set_password (pw : string) (s : sstate) : sstate :=
  {| s_url := s_url s; s_stage := s_stage s; s_email := s_email s;
     s_password := pw; s_authed := s_authed s; s_clipped := s_clipped s |}.
Definition add_clipped (t : string) (s : sstate) : sstate :=
  {| s_url := s_url s; s_stage := s_stage s; s_email := s_email s;
     s_password := s_password s; s_authed := s_authed s;
     s_clipped := t :: s_clipped s |}.

(** The submit of the password modal. *)
Definition submit (c : site) (s : sstate) : sstate :=
  if site_accepts c (s_email s) (s_password s)
  then {| s_url := site_home c; s_stage := Home; s_email := s_email s;
          s_password := s_password s; s_authed := true; s_clipped := s_clipped s |}
  else set_stage Home (set_url (site_url_after_reject c) s).

Definition is_stage (g : stage) (s : sstate) : bool :=
  match g, s_stage s with
  | Home, Home | WelcomeShown, WelcomeShown
  | LoginShown, LoginShown | PasswordShown, PasswordShown => true
  | _, _ => false
  end.

Definition coupons_of (c : site) (s : sstate) : list coupon :=
  imap (λ i ob,
    {| c_offer := Some ob.1;
       c_clip_btn := Some {| cb_handle := 100 + i; cb_exists := true;
                             cb_is_clipped :=
                               existsb (String.eqb (title ob.1)) (s_clipped s) |} |})
    (site_offers c).

Definition on_click (c : site) (r : role) (h : handle) (s : sstate) : sstate :=
  match r with
  | HeaderSignIn => set_stage (if site_welcome c then WelcomeShown else LoginShown) s
  | WelcomeSignIn => set_stage LoginShown s
  | LoginPasswordBtn => if site_password_modal c then set_stage PasswordShown s else s
  | PasswordSignIn => submit c s
  | ClipBtn =>
      match site_offers c !! (h - 100)%nat with
      | Some (o, true) => add_clipped (title o) s
      | _ => s
      end
  | _ => s
  end.

Definition on_fill (r : role) (text : string) (s : sstate) : sstate :=
  match r with
  | LoginEmailBox => set_email text s
  | PasswordBox => set_password text s
  | _ => s
  end.

Definition page_of (c : site) : Page := {|
  pstate := sstate;
  page_goto := λ u s, (set_url u s, Ok ());
  page_wait_for_page_ready_state := λ s, (s, Ok ());
  page_wait_for_timeout := λ _ s, (s, Ok ());
  page_url := s_url;
  page_content := λ s, (s, Ok ("<html><title>" +:+ site_title c +:+ "</title></html>"));
  query_store_info := λ s,
    (s, Ok (Some {| si_header := Some
       {| hdr_title := Some 0%nat;
          hdr_sign_in_btn := if s_authed s then None else Some 1%nat |} |}));
  query_initial_modal := λ s,
    (s, Ok (Some {| im_welcome_modal :=
       if site_welcome c && is_stage WelcomeShown s
       then Some {| wm_sign_in_btn := Some 2%nat |} else None |}));
  query_login_options := λ s,
    (s, Ok (Some {| lo_login_modal :=
       if is_stage LoginShown s
       then Some {| lm_email_box := Some 3%nat; lm_password_btn := Some 4%nat |}
       else None |}));
  query_password_modal := λ s,
    (s, Ok (Some {| pe_password_modal :=
       if site_password_modal c && is_stage PasswordShown s
       then Some {| pm_password_box := Some 5%nat; pm_sign_in_btn := Some 6%nat |}
       else None |}));
  query_coupon_nav := λ s,
    (s, Ok (Some {| cn_coupon_section :=
       Some {| ns_nav_link := if site_nav c then Some 7%nat else None |} |}));
  query_coupon_page := λ s,
    (s, Ok (Some {| cp_coupon_section := Some
       {| cs_heading := true;
          cs_available_coupons := Some (coupons_of c s);
          cs_pagination := None |} |}));
  element_click := λ r h s, (on_click c r h s, Ok ());
  element_fill := λ r h text s, (on_fill r text s, Ok ());
  element_text_content := λ r h s, (s, Ok (site_title c));
  element_get_attribute := λ r h a s, (s, Ok (site_href c));
  storage_state := λ s,
    {[ "cookies" := JArr (if s_authed s then [JStr "session=1"] else []) ]}
|}.

(** The two library calls of the discovery, on the inputs of the examples:
    an origin joined with an absolute path, and the validation of an
    [http(s)] URL (an origin gets its root path). *)
Definition sample_urllib : StoreDiscovery.UrlLib := {|
  StoreDiscovery.urljoin := λ base href,
    if PyStr.startswith "/" href then base +:+ href else base +:+ "/" +:+ href;
  StoreDiscovery.http_url := λ u,
    if PyStr.startswith "http://" u || PyStr.startswith "https://" u
    then Some (if PyStr.contains "/" (default "" (snd <$> PyStr.partition "://" u))
               then u else u +:+ "/")
    else None
|}.

Definition offer_of (t sv : string) : offer :=
  {| title := t; description := t +:+ " coupon"; savings := sv;
     expiration := "2024-12-31"; terms := "Limit 1" |}.

(** Acme Grocery: no welcome modal, accepts one account, five offers of
    which the second and the fourth do not clip. *)
Definition acme : site := {|
  site_title := "Acme Grocery | Official Site";
  site_href := Some "/login";
  site_welcome := false;
  site_password_modal := true;
  site_accepts := λ e pw, String.eqb e "user@example.com" && String.eqb pw "password123";
  site_url_after_reject := "https://www.acme.example/";
  site_home := "https://www.acme.example/";
  site_nav := true;
  site_offers :=
    [ (offer_of "Milk" "$1.00", true); (offer_of "Eggs" "$0.50", false);
      (offer_of "Bread" "10%", true); (offer_of "Soap" "$2.00", false);
      (offer_of "Rice" "$0.75", true) ]
|}.


Definition good_credentials : Schemas.StoreCredentials :=
  {| Schemas.username := None; Schemas.email := Some "user@example.com";
     Schemas.password := "password123" |}.
Definition wrong_credentials : Schemas.StoreCredentials :=
  {| Schemas.username := None; Schemas.email := Some "user@example.com";
     Schemas.password := "hunter2" |}.

Definition acme_config (i : option Z) (c : Schemas.StoreCredentials)
    : Schemas.StoreConfig :=
  {| Schemas.id := i; Schemas.name := "Acme Grocery";
     Schemas.base_url := "https://www.acme.example/";
     Schemas.login_url := "https://www.acme.example/login";
     Schemas.credentials := Some c |}.

Definition acme_discovery (c : Schemas.StoreCredentials) : Schemas.StoreDiscovery :=
  {| Schemas.url := "https://www.acme.example/";
     Schemas.discovery_credentials := c |}.

(** A run starts on a blank page with an empty session directory. *)
Definition start (c : site) : @world (page_of c) := @World (page_of c) initial ∅.

(** The log records of a run. *)
Definition logs (evs : list event) : list string :=
  omap (λ e, match e with ELog _ msg => Some msg | _ => None end) evs.

End Site.

(* ===================================================================== *)
(** * Part II: properties                                                 *)
(* ===================================================================== *)

(** ** Session cache *)
Section session_cache.
Import SessionManager.
Context `{IsoCodec}.

Implicit Types (st : fs) (p : path) (c : content) (d : pydict).

Lemma path_exists_read p st :
  path_exists p st = true ↔ is_Some (read_file p st).
Proof.
  unfold path_exists, read_file.
  destruct (st !! p.1) as [[|files]|]; simpl.
  - split; [done | by intros [? ?]].
  - apply bool_decide_eq_true.
  - split; [done | by intros [? ?]].
Qed.

Lemma path_exists_false_read p st :
  path_exists p st = false ↔ read_file p st = None.
Proof.
  rewrite <- not_true_iff_false, path_exists_read, <- eq_None_not_Some. done.
Qed.

Lemma read_write_file_eq p c st files :
  st !! p.1 = Some (BDir files) →
  read_file p (write_file p c st) = Some c.
Proof.
  intros Hd. unfold read_file, write_file. rewrite Hd.
  rewrite lookup_insert_eq. apply lookup_insert_eq.
Qed.

Lemma read_write_file_other p q c st :
  p.1 = q.1 → p.2 ≠ q.2 →
  read_file q (write_file p c st) = read_file q st.
Proof.
  intros Hd Hf. unfold read_file, write_file. rewrite <- Hd.
  destruct (st !! p.1) as [[|files]|] eqn:E; rewrite ?E; try done.
  rewrite lookup_insert_eq. by apply lookup_insert_ne.
Qed.

Lemma read_remove_file_eq p st : read_file p (remove_file p st) = None.
Proof.
  unfold read_file, remove_file.
  destruct (st !! p.1) as [[|files]|] eqn:E; rewrite ?E; try done.
  rewrite lookup_insert_eq. apply lookup_delete_eq.
Qed.

Lemma read_remove_file_other p q st :
  p.1 = q.1 → p.2 ≠ q.2 →
  read_file q (remove_file p st) = read_file q st.
Proof.
  intros Hd Hf. unfold read_file, remove_file. rewrite <- Hd.
  destruct (st !! p.1) as [[|files]|] eqn:E; rewrite ?E; try done.
  rewrite lookup_insert_eq. by apply lookup_delete_ne.
Qed.

Lemma read_file_dir p c st :
  read_file p st = Some c → ∃ files, st !! p.1 = Some (BDir files).
Proof.
  unfold read_file. destruct (st !! p.1) as [[|files]|]; try done. eauto.
Qed.

Lemma makedirs_dir dir st st1 :
  makedirs dir st = Some st1 → ∃ files, st1 !! dir = Some (BDir files).
Proof.
  unfold makedirs. destruct (st !! dir) as [[|files]|] eqn:E; intros; simplify_eq.
  - eauto.
  - exists ∅. apply lookup_insert_eq.
Qed.

Lemma string_length_app (s1 s2 : string) :
  String.length (s1 +:+ s2) = (String.length s1 + String.length s2)%nat.
Proof. induction s1 as [|a s1 IH]; simpl; [done | by rewrite IH]. Qed.

Lemma backup_name_ne (name : string) : name ≠ name +:+ ".bak".
Proof.
  intros E. apply (f_equal String.length) in E.
  rewrite string_length_app in E. simpl in E. lia.
Qed.

(** What [save_session] does to the caller's dictionary and to the file, by
    the outcome of the write. *)
Lemma save_session_ok now uid sid d st st1 d1 flt :
  save_session flt now uid sid d st = (st1, d1, true) →
  flt = NoFault ∧
  d1 = <["_metadata" := metadata now uid sid]> d ∧
  read_file (get_store_session_path uid sid) st1 = Some (Parsed (JObj d1)).
Proof.
  unfold save_session.
  destruct (makedirs _ st) as [st0|] eqn:Hmk; [|intros; simplify_eq].
  destruct (makedirs_dir _ _ _ Hmk) as [files Hfiles].
  destruct flt; intros; simplify_eq.
  split_and!; [done..|].
  by eapply read_write_file_eq.
Qed.

Lemma record_created_at_stamped now uid sid d :
  record_created_at (JObj (<["_metadata" := metadata now uid sid]> d))
  = fromisoformat (isoformat now).
Proof.
  unfold record_created_at. rewrite lookup_insert_eq. simpl.
  by rewrite lookup_insert_eq.
Qed.

(** [load_session] on a file that holds a dictionary whose creation date
    reads as [created]. *)
Lemma load_session_record now uid sid st d created :
  read_file (get_store_session_path uid sid) st = Some (Parsed (JObj d)) →
  record_created_at (JObj d) = Some created →
  load_session now uid sid st =
    if timedelta_days 7 <? now - created
    then (remove_file (get_store_session_path uid sid) st, None)
    else (st, Some d).
Proof.
  intros Hread Hcreated. unfold load_session.
  assert (path_exists (get_store_session_path uid sid) st = true) as Hex.
  { apply path_exists_read. by rewrite Hread. }
  rewrite Hex. simpl negb. cbv iota. rewrite Hread, Hcreated.
  destruct (timedelta_days 7 <? now - created); [|done].
  unfold delete_session. by rewrite Hex.
Qed.

Lemma load_session_absent now uid sid st :
  read_file (get_store_session_path uid sid) st = None →
  load_session now uid sid st = (st, None).
Proof.
  intros Hread. unfold load_session.
  apply path_exists_false_read in Hread. by rewrite Hread.
Qed.

(** C3, as amended: when [save_session] returns true, a [load_session] of
    the same (user, store) key at most 7 days later returns the state that
    was passed to save with the entry ['_metadata'] set to the stamp
    [{created_at, user_id, store_id}] of the save, which is the caller's
    dictionary as [save_session] left it; the load leaves the cache as it
    is. *)
Theorem save_then_load_roundtrip flt now now' uid sid d st :
  (save_session flt now uid sid d st).2 = true →
  fromisoformat (isoformat now) = Some now →
  now' - now ≤ timedelta_days 7 →
  let st1 := (save_session flt now uid sid d st).1.1 in
  let d1 := (save_session flt now uid sid d st).1.2 in
  d1 = <["_metadata" := metadata now uid sid]> d ∧
  load_session now' uid sid st1 = (st1, Some d1).
Proof.
  destruct (save_session flt now uid sid d st) as [[st1 d1] ok] eqn:Hsave.
  simpl. intros -> Hiso Hage.
  apply save_session_ok in Hsave as (_ & Hd1 & Hread).
  split; [done|].
  rewrite (load_session_record now' uid sid st1 d1 now Hread).
  - assert ((timedelta_days 7 <? now' - now) = false) as -> by lia. done.
  - by rewrite Hd1, record_created_at_stamped.
Qed.

(** C4: a stored record older than 7 days makes [load_session] return
    absence and delete the record, after which every load of the key
    returns absence, whatever the clock reads; a record aged 7 days or less
    is returned, and the cache is left as it is. *)
Theorem load_session_expiry now uid sid st d created :
  read_file (get_store_session_path uid sid) st = Some (Parsed (JObj d)) →
  record_created_at (JObj d) = Some created →
  (timedelta_days 7 < now - created →
     let st' := (load_session now uid sid st).1 in
     (load_session now uid sid st).2 = None ∧
     read_file (get_store_session_path uid sid) st' = None ∧
     ∀ now', load_session now' uid sid st' = (st', None)) ∧
  (now - created ≤ timedelta_days 7 →
     load_session now uid sid st = (st, Some d)).
Proof.
  intros Hread Hcreated.
  rewrite (load_session_record now uid sid st d created Hread Hcreated).
  split; intros Hage.
  - assert ((timedelta_days 7 <? now - created) = true) as -> by lia. simpl.
    split_and!; [done | apply read_remove_file_eq |].
    intros now'. apply load_session_absent, read_remove_file_eq.
  - assert ((timedelta_days 7 <? now - created) = false) as -> by lia. done.
Qed.


(** *** The cleanup pass *)








(** *** Rotation *)

Ltac fs_unfold :=
  unfold rotate_session, rotate_restore, save_session, os_remove, copy2, move,
    makedirs, path_exists, read_file, write_file, remove_file, backup_of,
    get_store_session_path in *; simpl in *.

(** A write that fails after [open] has truncated the file: [rotate_session]
    returns false, the record is no longer readable, and its copy stays in
    the backup file, which nothing moves back. *)
Lemma rotate_session_dump_failure now now' uid sid new st c :
  read_file (get_store_session_path uid sid) st = Some c →
  let r := rotate_session DumpFails now uid sid new st in
  r.2 = false ∧
  read_file (get_store_session_path uid sid) r.1.1 = Some Unparsable ∧
  read_file (backup_of (get_store_session_path uid sid)) r.1.1 = Some c ∧
  load_session now' uid sid r.1.1 = (r.1.1, None).
Proof.
  intros Hread.
  assert (rotate_session DumpFails now uid sid new st =
    (write_file (get_store_session_path uid sid) Unparsable
       (write_file (backup_of (get_store_session_path uid sid)) c st),
     <["_metadata" := metadata now uid sid]> new, false)) as ->.
  { pose proof (backup_name_ne ("store_" +:+ pretty sid +:+ "_session.json")).
    fs_unfold.
    destruct (st !! get_user_session_dir uid) as [[|files]|] eqn:E;
      simplify_map_eq; done. }
  simpl.
  destruct (read_file_dir _ _ _ Hread) as [files Hdir].
  assert (∀ q c', q.1 = get_user_session_dir uid →
    ∃ files', write_file q c' st !! get_user_session_dir uid = Some (BDir files'))
    as Hdir'.
  { intros q c' Hq. unfold write_file. rewrite Hq. simpl in Hdir. rewrite Hdir.
    eexists. apply lookup_insert_eq. }
  destruct (Hdir' (backup_of (get_store_session_path uid sid)) c eq_refl)
    as [files' Hfiles'].
  assert (read_file (get_store_session_path uid sid)
    (write_file (get_store_session_path uid sid) Unparsable
       (write_file (backup_of (get_store_session_path uid sid)) c st))
    = Some Unparsable) as Hbad.
  { by eapply read_write_file_eq. }
  split_and!; [done | done | |].
  - rewrite read_write_file_other; [|done|apply backup_name_ne].
    by eapply read_write_file_eq.
  - unfold load_session.
    assert (path_exists (get_store_session_path uid sid)
      (write_file (get_store_session_path uid sid) Unparsable
         (write_file (backup_of (get_store_session_path uid sid)) c st)) = true)
      as ->.
    { apply path_exists_read. by rewrite Hbad. }
    simpl negb. cbv iota. by rewrite Hbad.
Qed.

(** A write that fails before the file is touched: the record is intact and
    [rotate_session] returns false. *)
Lemma rotate_session_open_failure now uid sid new st c :
  read_file (get_store_session_path uid sid) st = Some c →
  let r := rotate_session OpenFails now uid sid new st in
  r.2 = false ∧
  read_file (get_store_session_path uid sid) r.1.1 = Some c.
Proof.
  intros Hread.
  pose proof (backup_name_ne ("store_" +:+ pretty sid +:+ "_session.json")).
  fs_unfold.
  destruct (st !! get_user_session_dir uid) as [[|files]|] eqn:E;
    simplify_map_eq; done.
Qed.

(** A write that succeeds: the new record is in place, stamped, and the
    backup is discarded. *)
Lemma rotate_session_success now uid sid new st c :
  read_file (get_store_session_path uid sid) st = Some c →
  let r := rotate_session NoFault now uid sid new st in
  r.2 = true ∧
  read_file (get_store_session_path uid sid) r.1.1 =
    Some (Parsed (JObj (<["_metadata" := metadata now uid sid]> new))) ∧
  read_file (backup_of (get_store_session_path uid sid)) r.1.1 = None.
Proof.
  intros Hread.
  pose proof (backup_name_ne ("store_" +:+ pretty sid +:+ "_session.json")).
  fs_unfold.
  destruct (st !! get_user_session_dir uid) as [[|files]|] eqn:E;
    simplify_map_eq; try done.
Qed.

End session_cache.

(** *** The session cache on sample data *)
Section session_cache_examples.
Import SessionManager.
#[local] Existing Instance sample_codec.

Example is_session_file_examples :
  is_session_file "store_1_session.json" = true ∧
  is_session_file "store_-42_session.json" = true ∧
  is_session_file "store__session.json" = true ∧
  is_session_file "store_session.json" = false ∧
  is_session_file "store_1_session.json.bak" = false ∧
  get_store_session_path 1 (-42) = ("1", "store_-42_session.json").
Proof. repeat split; reflexivity. Qed.

(** C3, as stated, fails: the state read back is not the state that was
    passed to [save_session]; it carries the ['_metadata'] block. *)
Lemma save_then_load_differs_from_argument :
  (save_session NoFault t_2024_01_01 1 1 sample_state ∅).2 = true ∧
  (load_session t_2024_01_01 1 1
     (save_session NoFault t_2024_01_01 1 1 sample_state ∅).1.1).2
  ≠ Some sample_state.
Proof.
  split; [reflexivity|]. intros Heq.
  apply (f_equal (λ o, o ≫= (.!! "_metadata"))) in Heq.
  vm_compute in Heq. discriminate.
Qed.

Lemma save_then_load_roundtrip_witness :
  (save_session NoFault t_2024_01_01 1 1 sample_state ∅).2 = true ∧
  fromisoformat (isoformat t_2024_01_01) = Some t_2024_01_01 ∧
  t_2024_01_08 - t_2024_01_01 ≤ timedelta_days 7 ∧
  load_session t_2024_01_08 1 1 sample_cache
  = (sample_cache, Some (<["_metadata" := metadata t_2024_01_01 1 1]> sample_state)).
Proof.
  assert (t_2024_01_08 - t_2024_01_01 ≤ timedelta_days 7) as Hage
    by (vm_compute; discriminate).
  assert ((save_session NoFault t_2024_01_01 1 1 sample_state ∅).2 = true)
    as Hsave by reflexivity.
  assert (fromisoformat (isoformat t_2024_01_01) = Some t_2024_01_01)
    as Hiso by reflexivity.
  split_and!; [exact Hsave | exact Hiso | exact Hage |].
  destruct (save_then_load_roundtrip NoFault t_2024_01_01 t_2024_01_08 1 1
              sample_state ∅ Hsave Hiso Hage) as [Hd Hload].
  rewrite <- Hd. exact Hload.
Defined.

Lemma load_session_expiry_witness :
  read_file (get_store_session_path 1 1) sample_cache
    = Some (sample_record t_2024_01_01 1 1) ∧
  timedelta_days 7 < t_2024_01_08_1s - t_2024_01_01 ∧
  (load_session t_2024_01_08_1s 1 1 sample_cache).2 = None ∧
  read_file (get_store_session_path 1 1)
    (load_session t_2024_01_08_1s 1 1 sample_cache).1 = None ∧
  load_session t_2024_01_08 1 1 sample_cache
    = (sample_cache, Some (<["_metadata" := metadata t_2024_01_01 1 1]> sample_state)).
Proof.
  assert (timedelta_days 7 < t_2024_01_08_1s - t_2024_01_01) as Hold
    by reflexivity.
  assert (t_2024_01_08 - t_2024_01_01 ≤ timedelta_days 7) as Hyoung
    by (vm_compute; discriminate).
  assert (read_file (get_store_session_path 1 1) sample_cache
          = Some (sample_record t_2024_01_01 1 1)) as Hread by reflexivity.
  assert (record_created_at
            (JObj (<["_metadata" := metadata t_2024_01_01 1 1]> sample_state))
          = Some t_2024_01_01) as Hcreated by reflexivity.
  destruct (load_session_expiry t_2024_01_08_1s 1 1 sample_cache
              (<["_metadata" := metadata t_2024_01_01 1 1]> sample_state)
              t_2024_01_01 Hread Hcreated) as [Hexp _].
  destruct (load_session_expiry t_2024_01_08 1 1 sample_cache
              (<["_metadata" := metadata t_2024_01_01 1 1]> sample_state)
              t_2024_01_01 Hread Hcreated) as [_ Hret].
  destruct (Hexp Hold) as (Hnone & Hgone & _).
  split_and!; [exact Hread | exact Hold | exact Hnone | exact Hgone
              | exact (Hret Hyoung)].
Defined.


(** C10, as stated, fails: a regular file has the name of user 1's
    directory; [save_session] returns, and the caller's dictionary holds no
    ['_metadata'] entry. *)
Lemma save_session_blocked_dict_unstamped :
  let r := save_session NoFault t_2024_01_08 1 1 sample_new_state
             sample_blocked_cache in
  makedirs (get_user_session_dir 1) sample_blocked_cache = None ∧
  r.2 = false ∧
  r.1.2 !! "_metadata" = None ∧
  r.1.2 = sample_new_state.
Proof. repeat split; reflexivity. Qed.


(** C5, as stated, fails: with [max_age_days = -1000000000] the age of
    every dated record exceeds the threshold (the record of 2024-01-01 is
    a week old on 2024-01-08, which is more than a negative number of
    days), and the cleanup removes none of them and returns 0:
    [timedelta] raises on every file. *)
Lemma cleanup_expired_sessions_overflow_keeps_records :
  let now := t_2024_01_08_1s in
  let max_age_days := -1000000000 in
  let r := cleanup_expired_sessions now max_age_days sample_cleanup_cache in
  read_file ("1", "store_1_session.json") sample_cleanup_cache
    = Some (sample_record t_2024_01_01 1 1) ∧
  record_created_at
    (JObj (<["_metadata" := metadata t_2024_01_01 1 1]> sample_state))
    = Some t_2024_01_01 ∧
  max_age_days * day_us < now - t_2024_01_01 ∧
  timedelta max_age_days = None ∧
  read_file ("1", "store_1_session.json") r.1
    = Some (sample_record t_2024_01_01 1 1) ∧
  r = (sample_cleanup_cache, 0%nat).
Proof. cbv zeta. split_and!; vm_compute; reflexivity. Qed.

(** C2 at a failing input: user 1 holds a valid record for store 1, and the
    write of the replacement fails in [json.dump]. [rotate_session] returns
    false, but the record is left truncated: it is no longer the record that
    was stored, and [load_session] finds nothing. The copy of the record
    stays in the backup file. *)
Theorem rotate_session_failed_write_not_restored :
  let r := rotate_session DumpFails t_2024_01_08 1 1 sample_new_state sample_cache in
  (load_session t_2024_01_08 1 1 sample_cache).2
    = Some (<["_metadata" := metadata t_2024_01_01 1 1]> sample_state) ∧
  r.2 = false ∧
  read_file (get_store_session_path 1 1) r.1.1 = Some Unparsable ∧
  read_file (get_store_session_path 1 1) r.1.1
    ≠ read_file (get_store_session_path 1 1) sample_cache ∧
  (load_session t_2024_01_08 1 1 r.1.1).2 = None ∧
  read_file (backup_of (get_store_session_path 1 1)) r.1.1
    = read_file (get_store_session_path 1 1) sample_cache.
Proof.
  assert (read_file (get_store_session_path 1 1) sample_cache
          = Some (sample_record t_2024_01_01 1 1)) as Hread by reflexivity.
  destruct (rotate_session_dump_failure t_2024_01_08 t_2024_01_08 1 1
              sample_new_state sample_cache _ Hread) as (Hret & Hbad & Hbak & Hload).
  cbv zeta. split_and!.
  - reflexivity.
  - exact Hret.
  - exact Hbad.
  - rewrite Hbad, Hread. discriminate.
  - by rewrite Hload.
  - by rewrite Hbak, Hread.
Qed.

End session_cache_examples.

(** ** Rules of the judgments *)
Section flow_logic.
Import Browser Judgments.
Context `{Page}.

Lemma sat_mono {R A} (m : M R A) (Q Q' : event → Prop) V V' VR VR' VX VX'
    (D D' : Prop) :
  sat m Q V VR VX D →
  (∀ e, Q e → Q' e) → (∀ a, V a → V' a) → (∀ r, VR r → VR' r) →
  (∀ x, VX x → VX' x) → (D → D') →
  sat m Q' V' VR' VX' D'.
Proof.
  intros Hm HQ HV HVR HVX HD w. destruct (Hm w) as [He Hr]. split.
  - eapply Forall_impl; eauto.
  - destruct (result_of m w); simpl in *; auto.
Qed.

Lemma sat_ret {R A} (a : A) Q (V : A → Prop) (VR : R → Prop) VX D :
  V a → sat (ret a) Q V VR VX D.
Proof. intros Ha w. split; [constructor | exact Ha]. Qed.

Lemma sat_return {R A} (r : R) Q (V : A → Prop) (VR : R → Prop) VX D :
  VR r → sat (return_ r) Q V VR VX D.
Proof. intros Hr w. split; [constructor | exact Hr]. Qed.

Lemma sat_raise {R A} (x : string) Q (V : A → Prop) (VR : R → Prop)
    (VX : string → Prop) D :
  VX x → sat (raise x) Q V VR VX D.
Proof. intros Hx w. split; [constructor | exact Hx]. Qed.

Lemma sat_diverge {R A} Q (V : A → Prop) (VR : R → Prop) VX (D : Prop) :
  D → sat diverge Q V VR VX D.
Proof. intros Hd w. split; [constructor | exact Hd]. Qed.

Lemma sat_emit {R} (e : event) (Q : event → Prop) (V : unit → Prop)
    (VR : R → Prop) VX D :
  Q e → V () → sat (emit e) Q V VR VX D.
Proof. intros He Hv w. split; [by repeat constructor | exact Hv]. Qed.

Lemma sat_log {R} lvl msg (Q : event → Prop) (V : unit → Prop)
    (VR : R → Prop) VX D :
  Q (ELog lvl msg) → V () → sat (log lvl msg) Q V VR VX D.
Proof. apply sat_emit. Qed.

Lemma sat_get_page {R} Q (V : pstate → Prop) (VR : R → Prop) VX D :
  (∀ s, V s) → sat get_page Q V VR VX D.
Proof. intros Hv w. split; [constructor | apply Hv]. Qed.

Lemma sat_get_files {R} Q (V : SessionManager.fs → Prop) (VR : R → Prop) VX D :
  (∀ s, V s) → sat get_files Q V VR VX D.
Proof. intros Hv w. split; [constructor | apply Hv]. Qed.

Lemma sat_page_call {R A} (e : event) (f : pstate → pstate * outcome A)
    (Q : event → Prop) (V : A → Prop) (VR : R → Prop) (VX : string → Prop) D :
  Q e →
  (∀ s a, (f s).2 = Ok a → V a) →
  (∀ s x, (f s).2 = Exn x → VX x) →
  sat (page_call e f) Q V VR VX D.
Proof.
  intros He Hv Hx w. unfold sat, events_of, result_of, page_call.
  specialize (Hv (w_page w)). specialize (Hx (w_page w)).
  destruct (f (w_page w)) as [s [a|x]]; simpl in *.
  - split; [by repeat constructor | by apply Hv].
  - split; [by repeat constructor | by apply Hx].
Qed.

Lemma sat_files_call {R} (e : list event) f msg (Q : event → Prop)
    (V : unit → Prop) (VR : R → Prop) (VX : string → Prop) D :
  Forall Q e → V () → VX msg → sat (files_call e f msg) Q V VR VX D.
Proof.
  intros He Hv Hx w. unfold sat, events_of, result_of, files_call.
  destruct (f (w_files w)); simpl; auto.
Qed.

Lemma sat_of_outcome {R A} (o : outcome A) Q (V : A → Prop) (VR : R → Prop)
    (VX : string → Prop) D :
  (∀ a, o = Ok a → V a) → (∀ x, o = Exn x → VX x) →
  sat (of_outcome o) Q V VR VX D.
Proof.
  intros Hv Hx. destruct o; simpl; [apply sat_ret | apply sat_raise]; auto.
Qed.

Lemma sat_bind {R A B} (m : M R A) (k : A → M R B) Q (V1 : A → Prop)
    (V : B → Prop) (VR : R → Prop) VX D :
  sat m Q V1 VR VX D →
  (∀ a, V1 a → sat (k a) Q V VR VX D) →
  sat (bind m k) Q V VR VX D.
Proof.
  intros Hm Hk w. unfold sat, events_of, result_of, bind in *.
  specialize (Hm w). destruct (m w) as [[w1 e1] r1]. simpl in Hm.
  destruct Hm as [He Hr]. destruct r1 as [a|r|x|]; simpl in *; auto.
  specialize (Hk a Hr w1). destruct (k a w1) as [[w2 e2] r2]. simpl in *.
  destruct Hk as [He2 Hr2]. split; [by apply Forall_app | done].
Qed.

Lemma sat_try {R A} (body : M R A) handler Q (V : A → Prop) (VR : R → Prop)
    (VX' VX : string → Prop) D :
  sat body Q V VR VX' D →
  (∀ x, VX' x → sat (handler x) Q V VR VX D) →
  sat (try_ body handler) Q V VR VX D.
Proof.
  intros Hb Hh w. unfold sat, events_of, result_of, try_ in *.
  specialize (Hb w). destruct (body w) as [[w1 e1] r1]. simpl in Hb.
  destruct Hb as [He Hr]. destruct r1 as [a|r|x|]; simpl in *; auto.
  specialize (Hh x Hr w1). destruct (handler x w1) as [[w2 e2] r2]. simpl in *.
  destruct Hh as [He2 Hr2]. split; [by apply Forall_app | done].
Qed.

Lemma sat_finally {R A} (body : M R A) fin Q (V : A → Prop) (VR : R → Prop)
    VX D :
  sat body Q V VR VX D →
  sat fin Q (λ _, True) (λ _, True) (λ _, True) True →
  sat (finally_ body fin) Q V VR VX D.
Proof.
  intros Hb Hf w. unfold sat, events_of, result_of, finally_ in *.
  specialize (Hb w). destruct (body w) as [[w1 e1] r1]. simpl in Hb.
  destruct Hb as [He Hr]. specialize (Hf w1).
  destruct (fin w1) as [[w2 e2] r2]. simpl in *.
  destruct Hf as [He2 _]. split; [by apply Forall_app | done].
Qed.

Lemma sat_call {R R'} (body : M R R) Q (V : R → Prop) (VR : R' → Prop) VX D :
  sat body Q V V VX D →
  sat (call body) Q V VR VX D.
Proof.
  intros Hb w. unfold sat, events_of, result_of, call in *.
  specialize (Hb w). destruct (body w) as [[w1 e1] r1]. simpl in Hb.
  destruct Hb as [He Hr]. by destruct r1.
Qed.

(** *** Runs that emit a given event *)







(** *** Events that every run emits *)

Lemma always_page_call {R A} e (f : pstate → pstate * outcome A) :
  always e (page_call (R:=R) e f).
Proof.
  intros w. unfold events_of, page_call.
  destruct (f (w_page w)) as [s o]. simpl. apply list_elem_of_here.
Qed.

Lemma always_bind_l {R A B} b (m : M R A) (k : A → M R B) :
  always b m → always b (bind m k).
Proof.
  intros Hm w. unfold always, events_of, bind in *. specialize (Hm w).
  destruct (m w) as [[w1 e1] r1]. simpl in *.
  destruct r1 as [x|r|x|]; simpl; auto.
  destruct (k x w1) as [[w2 e2] r2]. simpl. apply elem_of_app. by left.
Qed.


Lemma always_emit {R} e : always e (emit (R:=R) e).
Proof. intros w. apply list_elem_of_here. Qed.

Lemma always_bind_ret {R A B} b (a : A) (k : A → M R B) :
  always b (k a) → always b (bind (ret a) k).
Proof.
  intros Hk w. unfold always, events_of, bind, ret in *. specialize (Hk w).
  destruct (k a w) as [[w2 e2] r2]. by simpl in *.
Qed.







(** *** Results that are reached only through a given event *)

Lemma only_after_never {R A} b (m : M R A) Q (V : A → Prop) (VR : R → Prop)
    (VX : string → Prop) (D : Prop) :
  sat m Q (λ a, ¬ V a) (λ r, ¬ VR r) (λ x, ¬ VX x) (¬ D) →
  only_after b m V VR VX D.
Proof.
  intros Hm w Hpost. destruct (Hm w) as [_ Hr].
  destruct (result_of m w); simpl in *; by destruct Hr.
Qed.

Lemma only_after_always {R A} b (m : M R A) V VR VX D :
  always b m → only_after b m V VR VX D.
Proof. intros Hm w _. apply Hm. Qed.

Lemma only_after_bind {R A B} b (m : M R A) (k : A → M R B) Q (V1 : A → Prop)
    (V : B → Prop) (VR : R → Prop) (VX : string → Prop) (D : Prop) :
  sat m Q V1 (λ r, ¬ VR r) (λ x, ¬ VX x) (¬ D) →
  (∀ a, V1 a → only_after b (k a) V VR VX D) →
  only_after b (bind m k) V VR VX D.
Proof.
  intros Hm Hk w. unfold only_after, sat, events_of, result_of, bind in *.
  specialize (Hm w). destruct (m w) as [[w1 e1] r1]. simpl in Hm.
  destruct Hm as [_ Hr]. destruct r1 as [a|r|x|]; simpl in *; try done.
  specialize (Hk a Hr w1). destruct (k a w1) as [[w2 e2] r2]. simpl in *.
  intros Hpost. apply elem_of_app. right. by apply Hk.
Qed.

Lemma only_after_try {R A} b (body : M R A) handler Q (V : A → Prop)
    (VR : R → Prop) (VX : string → Prop) (D : Prop) :
  only_after b body V VR (λ _, False) D →
  (∀ x, sat (handler x) Q (λ a, ¬ V a) (λ r, ¬ VR r) (λ x, ¬ VX x) (¬ D)) →
  only_after b (try_ body handler) V VR VX D.
Proof.
  intros Hb Hh w. unfold only_after, sat, events_of, result_of, try_ in *.
  specialize (Hb w). destruct (body w) as [[w1 e1] r1]. simpl in Hb.
  destruct r1 as [a|r|x|]; simpl in *; auto.
  specialize (Hh x w1). destruct (handler x w1) as [[w2 e2] r2]. simpl in *.
  destruct Hh as [_ Hr]. intros Hpost. destruct r2; simpl in *; by destruct Hr.
Qed.

Lemma only_after_finally {R A} b (body : M R A) fin V VR VX D :
  only_after b body V VR VX D →
  only_after b (finally_ body fin) V VR VX D.
Proof.
  intros Hb w. unfold only_after, events_of, result_of, finally_ in *.
  specialize (Hb w). destruct (body w) as [[w1 e1] r1]. simpl in Hb.
  destruct (fin w1) as [[w2 e2] r2]. simpl.
  intros Hpost. apply elem_of_app. left. by apply Hb.
Qed.

Lemma only_after_call {R R'} b (body : M R R) (V : R → Prop) (VR : R' → Prop)
    VX D :
  only_after b body V V VX D →
  only_after b (call body) V VR VX D.
Proof.
  intros Hb w. unfold only_after, events_of, result_of, call in *.
  specialize (Hb w). destruct (body w) as [[w1 e1] r1]. simpl in *.
  by destruct r1.
Qed.

End flow_logic.

(** ** The login flows *)
Section login_flows.
Import Browser Judgments.
Context `{Page}.

Lemma sat_bind_any {R A B} (m : M R A) (k : A → M R B) Q (V : B → Prop)
    (VR : R → Prop) VX D :
  sat m Q (λ _, True) VR VX D →
  (∀ a, sat (k a) Q V VR VX D) →
  sat (bind m k) Q V VR VX D.
Proof. intros Hm Hk. eapply sat_bind; [exact Hm | intros a _; apply Hk]. Qed.

Lemma sat_try_any {R A} (body : M R A) handler Q (V : A → Prop) (VR : R → Prop)
    (VX : string → Prop) D :
  sat body Q V VR (λ _, True) D →
  (∀ x, sat (handler x) Q V VR VX D) →
  sat (try_ body handler) Q V VR VX D.
Proof. intros Hb Hh. eapply sat_try; [exact Hb | intros x _; apply Hh]. Qed.

Lemma sat_bind_ret {R A B} (a : A) (k : A → M R B) Q (V : B → Prop)
    (VR : R → Prop) VX D :
  sat (k a) Q V VR VX D → sat (bind (ret a) k) Q V VR VX D.
Proof.
  intros Hk. eapply sat_bind; [by apply (sat_ret a Q (λ x, x = a)) |].
  by intros x ->.
Qed.

Lemma sat_bind_stop {R A B} (m : M R A) (k : A → M R B) Q (V : B → Prop)
    (VR : R → Prop) VX D :
  sat m Q (λ _, False) VR VX D → sat (bind m k) Q V VR VX D.
Proof. intros Hm. eapply sat_bind; [exact Hm | by intros a []]. Qed.



(** The loop that waits for the login to complete, for any number of
    turns. *)
Lemma sat_verify_loop (n : nat) (retry_count : Z) (Q : event → Prop)
    (V : unit → Prop) (VR : bool → Prop) (D : Prop) :
  Q EReady → Q (EWait 2000) → Q (EWait 1000) → Q (EQuery STORE_INFO_QUERY) →
  (∀ msg, Q (ELog WARNING msg)) →
  Q (ELog INFO "Login successful - sign in button no longer present") →
  VR true → V () →
  sat (CouponService.verify_loop n retry_count) Q V VR (λ _, True) D.
Proof.
  intros Hready Hw2 Hw1 Hq Hwarn Hok Htrue Hv.
  revert retry_count.
  induction n as [|n IH]; intros retry_count; cbn [CouponService.verify_loop].
  - by apply sat_ret.
  - eapply sat_bind_any.
    { unfold CouponService._wait_for_page_ready. eapply sat_try_any.
      - eapply sat_bind_any; [by apply sat_page_call | intros _].
        by apply sat_page_call.
      - intros x. by apply sat_log. }
    intros _. eapply sat_bind_any; [by apply sat_get_page | intros s].
    destruct (CouponService.on_login_page _).
    + eapply sat_bind_any; [by apply sat_log | intros _].
      eapply sat_bind_any; [by apply sat_page_call | intros _]. apply IH.
    + eapply sat_bind_any; [by apply sat_page_call | intros verify_elements].
      destruct (verify_elements ≫= si_header) as [hdr|].
      * destruct (hdr_sign_in_btn hdr).
        -- eapply sat_bind_any; [by apply sat_log | intros _].
           eapply sat_bind_any; [by apply sat_page_call | intros _]. apply IH.
        -- eapply sat_bind_stop.
           eapply sat_bind_any; [by apply sat_log | intros _].
           by apply sat_return.
      * eapply sat_bind_any; [by apply sat_log | intros _].
        eapply sat_bind_any; [by apply sat_page_call | intros _]. apply IH.
Qed.

End login_flows.

(** Events are told apart by their constructors and by the first
    characters of their texts. *)
Ltac solve_ev :=
  try done;
  repeat split; intros;
  first [ discriminate
        | let E := fresh in
          intro E; cbv beta iota delta [String.append] in E; discriminate E ].

(** The condition on a result, once the block is known. *)
Ltac close_post := cbv beta iota; first [ done | tauto ].

Ltac head_of t :=
  lazymatch t with
  | ?f _ => head_of f
  | _ => t
  end.

(** One step of a derivation of [sat]; [special] is tried first. A block
    that is bound to a continuation is first tried as one that never falls
    through. *)
Ltac sat_step_with special :=
  first
  [ special
  | lazymatch goal with
    | |- Judgments.sat (Browser.bind (match ?x with _ => _ end) _) _ _ _ _ _ =>
        destruct x eqn:?; try discriminate
    | |- Judgments.sat (Browser.bind (Browser.ret _) _) _ _ _ _ _ =>
        apply sat_bind_ret; cbv beta
    | |- Judgments.sat (Browser.bind (Browser.bind _ _) _) _ _ _ _ _ =>
        first [ eapply sat_bind_stop; solve [repeat sat_step_with special]
              | eapply sat_bind_any; [ | intros ? ] ]
    | |- Judgments.sat (Browser.bind (Browser.return_ _) _) _ _ _ _ _ =>
        eapply sat_bind_stop
    | |- Judgments.sat (Browser.bind (Browser.raise _) _) _ _ _ _ _ =>
        eapply sat_bind_stop
    | |- Judgments.sat (Browser.bind _ _) _ _ _ _ _ =>
        eapply sat_bind_any; [ | intros ? ]
    | |- Judgments.sat (Browser.try_ _ _) _ _ _ _ _ =>
        eapply sat_try_any; [ | intros ? ]
    | |- Judgments.sat (Browser.finally_ _ _) _ _ _ _ _ => apply sat_finally
    | |- Judgments.sat (Browser.call _) _ _ _ _ _ => apply sat_call
    | |- Judgments.sat (Browser.ret _) _ _ _ _ _ => apply sat_ret; close_post
    | |- Judgments.sat (Browser.return_ _) _ _ _ _ _ => apply sat_return; close_post
    | |- Judgments.sat (Browser.raise _) _ _ _ _ _ => apply sat_raise; close_post
    | |- Judgments.sat Browser.diverge _ _ _ _ _ => apply sat_diverge; close_post
    | |- Judgments.sat (Browser.log _ _) _ _ _ _ _ => apply sat_log; [solve_ev | close_post]
    | |- Judgments.sat (Browser.emit _) _ _ _ _ _ => apply sat_emit; [solve_ev | close_post]
    | |- Judgments.sat Browser.get_page _ _ _ _ _ => apply sat_get_page; close_post
    | |- Judgments.sat Browser.get_files _ _ _ _ _ => apply sat_get_files; close_post
    | |- Judgments.sat (Browser.of_outcome _) _ _ _ _ _ =>
        apply sat_of_outcome; close_post
    | |- Judgments.sat (Browser.page_call _ _) _ _ _ _ _ =>
        apply sat_page_call; [solve_ev | close_post | close_post]
    | |- Judgments.sat (Browser.files_call _ _ _) _ _ _ _ _ =>
        apply sat_files_call; [repeat constructor; solve_ev | close_post | close_post]
    | |- Judgments.sat (match ?x with _ => _ end) _ _ _ _ _ =>
        destruct x eqn:?; try discriminate
    | |- Judgments.sat (CouponService.wait_for_elements_loop _ _ _) _ _ _ _ _ =>
        cbn [CouponService.wait_for_elements_loop]
    | |- Judgments.sat (CouponService.verify_loop _ _) _ _ _ _ _ =>
        apply sat_verify_loop; [solve_ev.. | done]
    | |- Judgments.sat ?m _ _ _ _ _ =>
        let h := head_of m in unfold h
    end ].

Ltac sat_go_with special := repeat sat_step_with special.
Ltac sat_go := sat_go_with fail.

(** A derivation of [always b m], for a block [m] that starts with
    statements that fall through and then emits [b]. *)
Ltac always_go :=
  repeat first
    [ apply always_emit
    | apply always_page_call
    | apply always_bind_ret; cbv beta
    | apply always_bind_l
    | lazymatch goal with
      | |- Judgments.always _ ?m => let h := head_of m in unfold h
      end ].





Section login_flow_facts.
Import Browser Judgments.
Context `{Page}.










End login_flow_facts.

Section login_flow_examples.
Import Browser Judgments Site.




End login_flow_examples.

(** ** The clip run *)



(** A derivation of [only_after b m ..]: the statements that come before
    the one that emits [b] are walked through; [special] takes over there. *)
Ltac only_after_step_with special :=
  first
  [ special
  | lazymatch goal with
    | |- Judgments.only_after _ (Browser.call _) _ _ _ _ =>
        apply only_after_call
    | |- Judgments.only_after _ (Browser.finally_ _ _) _ _ _ _ =>
        apply only_after_finally
    | |- Judgments.only_after _ (Browser.try_ _ _) _ _ _ _ =>
        eapply only_after_try with (Q := λ _, True);
        [ | intros ?; solve [sat_go] ]
    | |- Judgments.only_after _ (Browser.bind (match ?x with _ => _ end) _) _ _ _ _ =>
        destruct x eqn:?; try discriminate
    | |- Judgments.only_after _ (Browser.bind _ _) _ _ _ _ =>
        first [ eapply only_after_never with (Q := λ _, True);
                eapply sat_bind_stop; solve [sat_go]
              | eapply only_after_bind with (Q := λ _, True) (V1 := λ _, True);
                [ solve [sat_go] | intros ? _ ] ]
    | |- Judgments.only_after _ (match ?x with _ => _ end) _ _ _ _ =>
        destruct x eqn:?; try discriminate
    | |- Judgments.only_after _ ?m _ _ _ _ =>
        let h := head_of m in unfold h
    end ].

Ltac only_after_go_with special := repeat only_after_step_with special.

Section clip_run.
Import Browser Judgments.
Import CouponService.
Context `{Page}.










End clip_run.

(** ** The post-submit verification of the clipping engine *)
Section verification.
Import Browser Judgments.
Import CouponService.
Context `{Page}.

Lemma wait_for_page_ready_run (w : world) :
  ∃ w1 e1, _wait_for_page_ready (R:=bool) w = (w1, e1, Next ()) ∧
    count_occ event_eq_dec e1 (EWait 1000) = 0%nat ∧
    count_occ event_eq_dec e1 (EQuery STORE_INFO_QUERY) = 0%nat.
Proof.
  unfold _wait_for_page_ready, try_, bind, wait_for_page_ready_state,
    wait_for_timeout, page_call, log, emit.
  destruct (page_wait_for_page_ready_state (w_page w)) as [s1 [[]|x1]]; simpl.
  - destruct (page_wait_for_timeout 2000 s1) as [s2 [[]|x2]]; simpl; eauto.
  - eauto.
Qed.

(** The end of a turn that did not succeed: a warning, the wait, the
    turns that are left. *)
Lemma verify_loop_retry (n : nat) (retry_count : Z) msg (w w' : world) evs r :
  (∀ w w' evs r, verify_loop n retry_count w = (w', evs, r) →
     (count_occ event_eq_dec evs (EWait 1000) ≤ n)%nat ∧
     (count_occ event_eq_dec evs (EQuery STORE_INFO_QUERY) ≤ n)%nat ∧
     header_checked r) →
  bind (log WARNING msg)
    (λ _, bind (wait_for_timeout 1000) (λ _, verify_loop n retry_count)) w
  = (w', evs, r) →
  (count_occ event_eq_dec evs (EWait 1000) ≤ S n)%nat ∧
  (count_occ event_eq_dec evs (EQuery STORE_INFO_QUERY) ≤ n)%nat ∧
  header_checked r.
Proof.
  intros IH. unfold bind, log, emit, wait_for_timeout, page_call.
  destruct (page_wait_for_timeout 1000 (w_page w)) as [s2 [[]|x2]].
  - destruct (verify_loop n retry_count (World s2 (w_files w)))
      as [[w3 e3] r3] eqn:Hloop.
    destruct (IH _ _ _ _ Hloop) as (IH1 & IH2 & IH3).
    intros; simplify_eq. simpl. split_and!; [lia | lia | done].
  - intros; simplify_eq. simpl. split_and!; [lia | lia | done].
Qed.

(** [n] turns of the loop wait 1000 ms at most [n] times and ask for the
    header at most [n] times; the loop leaves the function only to report
    success, and only in a turn in which the URL was not a login URL and the
    header, as the page answered, had no sign-in button. *)
Lemma verify_loop_spec (n : nat) (retry_count : Z) (w w' : world) evs r :
  verify_loop n retry_count w = (w', evs, r) →
  (count_occ event_eq_dec evs (EWait 1000) ≤ n)%nat ∧
  (count_occ event_eq_dec evs (EQuery STORE_INFO_QUERY) ≤ n)%nat ∧
  header_checked r.
Proof.
  revert retry_count w w' evs r.
  induction n as [|n IH]; intros retry_count w w' evs r.
  - simpl. unfold ret. intros; simplify_eq. simpl.
    split_and!; [lia | lia | done].
  - cbn [verify_loop]. unfold bind at 1.
    destruct (wait_for_page_ready_run w) as (w1 & e1 & -> & Hw1 & Hq1).
    unfold bind at 1, get_page at 1. cbv beta iota zeta.
    destruct (on_login_page (PyStr.lower (page_url (w_page w1)))) eqn:Hurl.
    + destruct (bind (log WARNING _) _ w1) as [[w2 e2] r2] eqn:Hrest.
      apply (verify_loop_retry n (retry_count + 1)) in Hrest
        as (Hr1 & Hr2 & Hr3); [|apply IH].
      intros; simplify_eq. rewrite !count_occ_app, Hw1, Hq1. simpl.
      split_and!; [lia | lia | done].
    + unfold bind at 1, q_store_info at 1, page_call at 1.
      destruct (query_store_info (w_page w1)) as [s2 [x|x2]] eqn:Hquery;
        cbv beta iota zeta.
      2:{ intros; simplify_eq. rewrite !count_occ_app, Hw1, Hq1. simpl.
          split_and!; [lia | lia | done]. }
      destruct (x ≫= si_header) as [hdr|] eqn:Hhdr;
        [destruct (hdr_sign_in_btn hdr) as [b|] eqn:Hbtn|].
      * destruct (bind (log WARNING _) _ _) as [[w2 e2] r2] eqn:Hrest.
        apply (verify_loop_retry n (retry_count + 1)) in Hrest
          as (Hr1 & Hr2 & Hr3); [|apply IH].
        intros; simplify_eq. rewrite !count_occ_app, Hw1, Hq1. simpl.
        split_and!; [lia | lia | done].
      * unfold bind, log, emit, return_. intros; simplify_eq.
        rewrite !count_occ_app, Hw1, Hq1. simpl.
        split_and!; [lia | lia | done |].
        exists (w_page w1), x, hdr. by rewrite Hquery.
      * destruct (bind (log WARNING _) _ _) as [[w2 e2] r2] eqn:Hrest.
        apply (verify_loop_retry n (retry_count + 1)) in Hrest
          as (Hr1 & Hr2 & Hr3); [|apply IH].
        intros; simplify_eq. rewrite !count_occ_app, Hw1, Hq1. simpl.
        split_and!; [lia | lia | done].
Qed.


Lemma sat_verify_loop_checked (n : nat) (retry_count : Z) :
  sat (verify_loop n retry_count) (λ _, True) (λ _, True)
      (λ b, b = true → header_sign_in_gone) (λ _, True) False.
Proof.
  intros w. split; [by apply Forall_forall|].
  unfold result_of.
  destruct (verify_loop n retry_count w) as [[w' evs] r] eqn:Hrun.
  apply verify_loop_spec in Hrun as (_ & _ & Hr).
  destruct r; simpl in *; try done. by destruct Hr.
Qed.

(** The login flow of the clipping engine reports success only when a turn
    of its verification saw the header sign-in affordance gone. *)
Lemma coupon_login_success_is_verified {R} cfg (w : world) :
  result_of (_handle_login_flow (R:=R) cfg) w = Next true →
  header_sign_in_gone.
Proof.
  assert (sat (_handle_login_flow (R:=R) cfg) (λ _, True)
              (λ b, b = true → header_sign_in_gone) (λ _, False)
              (λ _, False) False) as Hsat.
  { unfold _handle_login_flow.
    sat_go_with ltac:(idtac;
      lazymatch goal with
      | |- sat (bind (verify_loop _ _) _) _ _ _ _ _ =>
          eapply sat_bind_any;
          [ eapply sat_mono; [apply sat_verify_loop_checked | done..]
          | intros ? ]
      end). }
  intros Hres. destruct (Hsat w) as [_ Hpost]. rewrite Hres in Hpost.
  by apply Hpost.
Qed.

End verification.

(** ** The services on the scripted site *)
Section site_runs.
Import SessionManager Browser Judgments Site.
Import CouponService.



(** C8 at a failing input: Acme rejects the password and leaves the
    visitor on its home page, where the header still shows the sign-in
    link. The login flow of the clipping engine makes its five attempts, a
    second apart, and fails; [verify_login] of the discovery looks at the URL
    once, reports the login as successful and caches the session of a
    visitor who is not signed in. *)
Theorem verify_login_accepts_unverified_login :
  let cfg := acme_config (Some 7) wrong_credentials in
  let clip := @CouponService._handle_login_flow (page_of acme) unit cfg in
  let disc := @StoreDiscovery.verify_login (page_of acme) unit (0, 0) cfg 1 in
  (result_of clip (start acme) = Next false ∧
   List.filter (λ e, bool_decide (e = EQuery STORE_INFO_QUERY ∨ e = EWait 1000
                                 ∨ e = EClick PasswordSignIn 6%nat))
     (events_of clip (start acme))
   = EQuery STORE_INFO_QUERY :: EClick PasswordSignIn 6%nat
     :: List.concat (replicate 5 [EQuery STORE_INFO_QUERY; EWait 1000]) ∧
   last (logs (events_of clip (start acme)))
   = Some "Failed to verify login completion after maximum retries") ∧
  (result_of disc (start acme) = Next true ∧
   s_authed (w_page (disc (start acme)).1.1) = false ∧
   (query_store_info (w_page (disc (start acme)).1.1)).2
   = Ok (Some {| si_header := Some {| hdr_title := Some 0%nat;
                                      hdr_sign_in_btn := Some 1%nat |} |}) ∧
   is_Some (read_file (get_store_session_path 1 7) (w_files (disc (start acme)).1.1))).
Proof.
  cbv zeta. split_and!; try (vm_compute; reflexivity).
  vm_compute. eauto.
Qed.

End site_runs.

Section discovery_facts.
Import Browser Judgments.
Context `{Page} `{StoreDiscovery.UrlLib}.

(** Whatever the page, a discovery that returns a store configuration has
    logged the credentials it was given, in clear. *)
Lemma analyze_store_success_logs_credentials {R} key discovery_config
    (w : world) cfg :
  result_of (StoreDiscovery.analyze_store (R:=R) key discovery_config) w
    = Next (Some cfg) →
  ELog INFO ("Created store config with credentials: "
             +:+ StoreDiscovery.str_credentials
                   (Schemas.discovery_credentials discovery_config))
    ∈ events_of (StoreDiscovery.analyze_store (R:=R) key discovery_config) w.
Proof.
  assert (only_after
            (ELog INFO ("Created store config with credentials: "
                        +:+ StoreDiscovery.str_credentials
                              (Schemas.discovery_credentials discovery_config)))
            (StoreDiscovery.analyze_store (R:=R) key discovery_config)
            (λ o, match o with Some _ => True | None => False end)
            (λ _, False) (λ _, False) False) as Hrun.
  { unfold StoreDiscovery.analyze_store.
    only_after_go_with ltac:(idtac;
      lazymatch goal with
      | |- only_after ?b (bind (log INFO ?msg) _) _ _ _ _ =>
          lazymatch b with
          | ELog INFO msg => apply only_after_always; always_go
          end
      end). }
  intros Hres. apply Hrun. by rewrite Hres.
Qed.

End discovery_facts.

Section discovery_runs.
Import SessionManager Browser Judgments Site.
Import CouponService.
#[local] Existing Instance sample_urllib.

(** C1 at a failing input: a discovery of Acme with the credentials of a
    user. The last record that [analyze_store] logs holds the e-mail and the
    password in clear, and the records logged for two users who differ only
    in their password differ. *)
Theorem analyze_store_logs_credentials :
  let run c := @StoreDiscovery.analyze_store (page_of acme) sample_urllib unit
                 (0, 0) (acme_discovery c) in
  result_of (run good_credentials) (start acme)
    = Next (Some (acme_config None good_credentials)) ∧
  List.last (events_of (run good_credentials) (start acme)) EContent
    = EBrowserClose ∧
  ELog INFO "Created store config with credentials: username=None email='user@example.com' password='password123'"
    ∈ events_of (run good_credentials) (start acme) ∧
  ELog INFO "Created store config with credentials: username=None email='user@example.com' password='hunter2'"
    ∈ events_of (run wrong_credentials) (start acme) ∧
  logs (events_of (run good_credentials) (start acme))
    ≠ logs (events_of (run wrong_credentials) (start acme)).
Proof.
  cbv zeta. split_and!.
  - vm_compute. reflexivity.
  - vm_compute. reflexivity.
  - vm_compute. repeat first [ left | right ].
  - vm_compute. repeat first [ left | right ].
  - vm_compute. discriminate.
Qed.

(** C6 at a failing input: a store that has no numeric id yet, in two
    processes whose hash keys are those of [PYTHONHASHSEED=1] and
    [PYTHONHASHSEED=2]. The identifiers differ, so do the names of the
    session file, and the session that [verify_login] caches in the first
    process is not found by [load_cached_session] in the second. *)
Theorem fallback_store_id_differs_across_runs :
  let cfg := acme_config None good_credentials in
  let k1 := PyHash.key_of_seed 1 in
  let k2 := PyHash.key_of_seed 2 in
  let verify := @StoreDiscovery.verify_login (page_of acme) unit k1 cfg 1 in
  let cached := (verify (start acme)).1.1 in
  store_id_of k1 cfg = -3584351299168720794 ∧
  store_id_of k2 cfg = 7337381158078744047 ∧
  get_store_session_path 1 (store_id_of k1 cfg)
    = ("1", "store_-3584351299168720794_session.json") ∧
  get_store_session_path 1 (store_id_of k2 cfg)
    = ("1", "store_7337381158078744047_session.json") ∧
  result_of verify (start acme) = Next true ∧
  result_of (@StoreDiscovery.load_cached_session (page_of acme) unit k1 cfg 1)
    cached = Next true ∧
  result_of (@StoreDiscovery.load_cached_session (page_of acme) unit k2 cfg 1)
    cached = Next false.
Proof. cbv zeta. split_and!; vm_compute; reflexivity. Qed.

End discovery_runs.
